(** * EcoPredict backend: subscription gate, usage ledger and payment webhook

    A shallow embedding of the JavaScript sources

      - [src/functions/index.js]   (two copies of [checkSubscription] and of
        the [/runAnalysis] handler: the Express server and the cloud function),
      - [src/webhook_handler.js]   ([paypalWebhookHandler]),

    together with the properties of the subscription gate and of the payment
    webhook that the specification states about them.

    Firestore is modelled as a finite map from document paths to documents, a
    document as a finite map from field names to values.  Asynchronous code is
    written in a small state-and-exception monad over that store; every store
    call is recorded in a log, so that "performs no write" and "a read
    raised" are statements about the log. *)

From Stdlib Require Import ZArith String Ascii List Bool Lia.
From stdpp Require Import base option gmap strings list pretty.

Local Open Scope string_scope.
Local Open Scope Z_scope.
Local Open Scope list_scope.

(* ===================================================================== *)
(** ** JavaScript values held in Firestore fields *)
(* ===================================================================== *)

Module JS.

(** A JS number, restricted to the integers and NaN.  Integer arithmetic
    on doubles is exact between [MIN_SAFE_INTEGER] and [MAX_SAFE_INTEGER];
    the theorems that use [+] say so. *)
Inductive number : Type :=
| NaN
| Num (z : Z).

(** A field value.  A missing field (JS [undefined]) is [None] at type
    [option value]. *)
Inductive value : Type :=
| VNull
| VBool (b : bool)
| VNumber (n : number)
| VStr (s : string)
| VTimestamp (t : Z).

(** The result of [x + 1]: a number, or a string when [x] is (or converts
    to) a string. *)
Inductive prim : Type :=
| PNum (n : number)
| PStr (s : string).

Definition MIN_SAFE_INTEGER : Z := - (2 ^ 53 - 1).
Definition MAX_SAFE_INTEGER : Z := 2 ^ 53 - 1.

Definition value_of_prim (p : prim) : value :=
  match p with
  | PNum n => VNumber n
  | PStr s => VStr s
  end.

(** [!s] on a string-or-undefined: only [undefined] and [""] are falsy. *)
Definition truthy_str (s : option string) : bool :=
  match s with
  | None => false
  | Some EmptyString => false
  | Some (String _ _) => true
  end.

(** Template-literal interpolation of a string-or-undefined. *)
Definition interp_str (s : option string) : string :=
  match s with
  | None => "undefined"
  | Some s => s
  end.

(** [v === s] for a string literal [s]. *)
Definition strict_eq_str (v : option value) (s : string) : bool :=
  match v with
  | Some (VStr s') => String.eqb s' s
  | _ => false
  end.

(** Number::toString for the modelled numbers: the decimal digits, as JS
    prints an integer of magnitude below 10^21. *)
Definition string_of_number (n : number) : string :=
  match n with
  | NaN => "NaN"
  | Num z => pretty z
  end.

(** Template-literal interpolation of a primitive. *)
Definition interp_prim (p : prim) : string :=
  match p with
  | PNum n => string_of_number n
  | PStr s => s
  end.

(** [String.prototype.toLowerCase], on ASCII letters. *)
Definition lower_ascii (c : ascii) : ascii :=
  let n := nat_of_ascii c in
  if (Nat.leb 65 n && Nat.leb n 90)%bool then ascii_of_nat (n + 32) else c.

Fixpoint toLowerCase (s : string) : string :=
  match s with
  | EmptyString => EmptyString
  | String c s' => String (lower_ascii c) (toLowerCase s')
  end.

(** Text after the first occurrence of [sep] in [s], if there is one. *)
Fixpoint drop_to (sep s : string) : option string :=
  if String.prefix sep s
  then Some (String.substring (String.length sep)
                              (String.length s - String.length sep)%nat s)
  else match s with
       | EmptyString => None
       | String _ s' => drop_to sep s'
       end.

(** Text before the first occurrence of [sep] in [s] (all of [s] if none). *)
Fixpoint take_to (sep s : string) : string :=
  if String.prefix sep s then EmptyString
  else match s with
       | EmptyString => EmptyString
       | String c s' => String c (take_to sep s')
       end.

(** [s.split(sep)[1]] for a non-empty separator. *)
Definition split_at1 (sep s : string) : option string :=
  take_to sep <$> drop_to sep s.

(** Does [s] contain [sub]?  ([String.prototype.includes].) *)
Fixpoint includes (sub s : string) : bool :=
  if String.prefix sub s then true
  else match s with
       | EmptyString => false
       | String _ s' => includes sub s'
       end.

Section Coercions.
(** The engine's conversions of strings and of objects, which the
    sources rely on only through [<] and [+]:
    [StringToNumber_lt s n] says that the string [s] converts to a
    number below [n]; [Timestamp_toPrimitive t] is the string a
    Timestamp object converts to. *)
Variable StringToNumber_lt : string -> Z -> bool.
Variable Timestamp_toPrimitive : Z -> string.

(** [v < n] for a number literal [n]. *)
Definition lt_num (v : option value) (n : Z) : bool :=
  match v with
  | None => false
  | Some VNull => 0 <? n
  | Some (VBool b) => (if b then 1 else 0) <? n
  | Some (VNumber NaN) => false
  | Some (VNumber (Num z)) => z <? n
  | Some (VStr s) => StringToNumber_lt s n
  | Some (VTimestamp t) => StringToNumber_lt (Timestamp_toPrimitive t) n
  end.

(** [v + 1]. *)
Definition add1 (v : option value) : prim :=
  match v with
  | None => PNum NaN
  | Some VNull => PNum (Num 1)
  | Some (VBool b) => PNum (Num ((if b then 1 else 0) + 1))
  | Some (VNumber NaN) => PNum NaN
  | Some (VNumber (Num z)) => PNum (Num (z + 1))
  | Some (VStr s) => PStr (s +:+ "1")
  | Some (VTimestamp t) => PStr (Timestamp_toPrimitive t +:+ "1")
  end.
End Coercions.

End JS.
Export JS.

(* ===================================================================== *)
(** ** The document store *)
(* ===================================================================== *)

Module Firestore.

(** What an object literal passed to [ref.set] holds for one field: a
    value (possibly [undefined]) or the [FieldValue.serverTimestamp()]
    sentinel. *)
Inductive field_write : Type :=
| FValue (v : option value)
| FServerTimestamp.

(** The data of one [set(..., { merge: true })] call, fields in the order
    of the object literal. *)
Definition payload : Type := list (string * field_write).

(** One call on the store, with whether it succeeded. *)
Inductive event : Type :=
| EvGet (path : string) (ok : bool)
| EvSet (path : string) (data : payload) (ok : bool).

(** The part of the store's behaviour the program does not control:
    which calls fail, and the time the server assigns. *)
Record backend : Type := {
  get_fails : string -> bool;
  set_fails : string -> bool;
  server_time : Z
}.

(** Documents by path, and the calls made so far (oldest first). *)
Record world : Type := {
  docs : gmap string (gmap string value);
  log : list event
}.

Definition record (e : event) (w : world) : world :=
  {| docs := docs w; log := log w ++ [e] |}.

Definition is_set (e : event) : bool :=
  match e with EvSet _ _ _ => true | EvGet _ _ => false end.

Definition raised (e : event) : bool :=
  match e with EvGet _ ok => negb ok | EvSet _ _ ok => negb ok end.

(** The [set] calls of a log. *)
Definition writes (l : list event) : list event := List.filter is_set l.

Definition has_undefined (p : payload) : bool :=
  existsb (fun kv => match snd kv with FValue None => true | _ => false end) p.

Definition resolve (now : Z) (fw : field_write) : option value :=
  match fw with
  | FValue v => v
  | FServerTimestamp => Some (VTimestamp now)
  end.

(** Merge semantics: the fields of the payload are written, every other
    field of the document stays. *)
Fixpoint merge_fields (now : Z) (p : payload) (d : gmap string value)
  : gmap string value :=
  match p with
  | [] => d
  | (k, fw) :: p' =>
      merge_fields now p'
        (match resolve now fw with Some v => <[k := v]> d | None => d end)
  end.

End Firestore.
Export Firestore.

(* ===================================================================== *)
(** ** Asynchronous code: state and exceptions *)
(* ===================================================================== *)

(** A JS [Error], by its message. *)
Inductive exn : Type := Error (msg : string).

Inductive outcome (A : Type) : Type :=
| Returned (a : A)
| Thrown (e : exn).
Arguments Returned {A} a.
Arguments Thrown {A} e.

Definition M (A : Type) : Type := world -> outcome A * world.

Definition ret {A} (a : A) : M A := fun w => (Returned a, w).

Definition throw {A} (e : exn) : M A := fun w => (Thrown e, w).

Definition bind {A B} (m : M A) (k : A -> M B) : M B :=
  fun w =>
    match m w with
    | (Returned a, w') => k a w'
    | (Thrown e, w') => (Thrown e, w')
    end.

(** [try { body } catch (error) { handler }] *)
Definition try_catch {A} (body : M A) (handler : exn -> M A) : M A :=
  fun w =>
    match body w with
    | (Returned a, w') => (Returned a, w')
    | (Thrown e, w') => handler e w'
    end.

(** Run a call to completion and hand back how it settled. *)
Definition settle {A} (m : M A) : M (outcome A) :=
  fun w => let (o, w') := m w in (Returned o, w').

(** [await Promise.all([a, b])]: both calls are issued; the result is the
    pair of results, or the first rejection. *)
Definition Promise_all2 {A B} (a : M A) (b : M B) : M (A * B) :=
  bind (settle a) (fun oa =>
  bind (settle b) (fun ob =>
    match oa, ob with
    | Returned x, Returned y => ret (x, y)
    | Thrown e, _ => throw e
    | Returned _, Thrown e => throw e
    end)).

#[global] Instance M_ret : MRet M := @ret.
#[global] Instance M_bind : MBind M := fun A B k m => bind m k.

Section Store.
Variable be : backend.

(** [await ref.get()]: the snapshot's [data()], [None] for a document
    that does not exist. *)
Definition doc_get (path : string) : M (option (gmap string value)) :=
  fun w =>
    if get_fails be path
    then (Thrown (Error "firestore: get failed"), record (EvGet path false) w)
    else (Returned (docs w !! path), record (EvGet path true) w).

(** [await ref.set(data, { merge: true })].  The client refuses a field
    that is [undefined]; a call that fails changes nothing. *)
Definition doc_set (path : string) (data : payload) : M unit :=
  fun w =>
    if (has_undefined data || set_fails be path)%bool
    then (Thrown (Error "firestore: set failed"),
          record (EvSet path data false) w)
    else (Returned tt,
          record (EvSet path data true)
            {| docs := <[path := merge_fields (server_time be) data
                                   (default ∅ (docs w !! path))]> (docs w);
               log := log w |}).
End Store.

(* ===================================================================== *)
(** ** src/functions/index.js: the subscription gate *)
(* ===================================================================== *)

(** [{ canProceed, message }] *)
Record decision : Type := {
  canProceed : bool;
  message : string
}.

Section Gate.
Variable StringToNumber_lt : string -> Z -> bool.
Variable Timestamp_toPrimitive : Z -> string.
(** [process.env.K_SERVICE] *)
Variable K_SERVICE : option string.
Variable be : backend.

Definition appId : string :=
  match K_SERVICE with
  | Some s => s
  | None => "default-app-id"
  end.

(** The document paths; [db.doc] is taken as a total constructor of
    references, a path being the key of the document in the store. *)
Definition status_path (userId : option string) : string :=
  "/artifacts/" +:+ appId +:+ "/users/" +:+ interp_str userId
    +:+ "/subscriptions/status".

Definition usage_path (userId : option string) : string :=
  "/artifacts/" +:+ appId +:+ "/users/" +:+ interp_str userId
    +:+ "/usage/analysis_count".

Definition FREE_TIER_LIMIT : Z := 5.

(** [{ tier: 'free', status: 'unknown' }] *)
Definition default_status : gmap string value :=
  {[ "tier" := VStr "free"; "status" := VStr "unknown" ]}.

(** [{ count: 0 }] *)
Definition default_usage : gmap string value :=
  {[ "count" := VNumber (Num 0) ]}.

(** [{ count: 0, last_reset: new Date(0) }]; the date is never read. *)
Definition default_usage_gcf : gmap string value :=
  {[ "count" := VNumber (Num 0); "last_reset" := VTimestamp 0 ]}.

Definition increment_payload (newCount : prim) : payload :=
  [ ("count", FValue (Some (value_of_prim newCount)));
    ("last_use", FServerTimestamp) ].

Definition pro_message : string := "Pro subscription active.".

Definition free_message (newCount : prim) : string :=
  "Free tier usage: " +:+ interp_prim newCount +:+ "/"
    +:+ pretty FREE_TIER_LIMIT +:+ " analyses used.".

Definition limit_message : string :=
  "Free tier limit of " +:+ pretty FREE_TIER_LIMIT
    +:+ " analyses exceeded. Please upgrade to Pro.".

Definition internal_error_message : string :=
  "Internal server error during authorization check.".

Definition missing_id_message : string :=
  "User ID is required for authorization.".

(** The Express server's copy (index.js, lines 51-100). *)
Definition checkSubscription (userId : option string) : M decision :=
  if negb (truthy_str userId) then
    ret {| canProceed := false; message := missing_id_message |}
  else
    let userStatusRef := status_path userId in
    let freeTierUsageRef := usage_path userId in
    try_catch
      ('(statusSnap, usageSnap) ←
         Promise_all2 (doc_get be userStatusRef) (doc_get be freeTierUsageRef);
       let statusData := default default_status statusSnap in
       let usageData := default default_usage usageSnap in
       let currentCount := usageData !! "count" in
       if (strict_eq_str (statusData !! "tier") "pro"
           && strict_eq_str (statusData !! "status") "active")%bool
       then ret {| canProceed := true; message := pro_message |}
       else if lt_num StringToNumber_lt Timestamp_toPrimitive
                 currentCount FREE_TIER_LIMIT
       then
         let newCount := add1 Timestamp_toPrimitive currentCount in
         doc_set be freeTierUsageRef (increment_payload newCount);;
         ret {| canProceed := true; message := free_message newCount |}
       else ret {| canProceed := false; message := limit_message |})
      (fun error =>
         ret {| canProceed := false; message := internal_error_message |}).

(** The cloud function's copy (index.js, lines 253-297): no check of
    [userId], and a default usage record with a [last_reset] field. *)
Definition checkSubscription_gcf (userId : option string) : M decision :=
  let userStatusRef := status_path userId in
  let freeTierUsageRef := usage_path userId in
  try_catch
    ('(statusSnap, usageSnap) ←
       Promise_all2 (doc_get be userStatusRef) (doc_get be freeTierUsageRef);
     let statusData := default default_status statusSnap in
     let usageData := default default_usage_gcf usageSnap in
     let currentCount := usageData !! "count" in
     if (strict_eq_str (statusData !! "tier") "pro"
         && strict_eq_str (statusData !! "status") "active")%bool
     then ret {| canProceed := true; message := pro_message |}
     else if lt_num StringToNumber_lt Timestamp_toPrimitive
               currentCount FREE_TIER_LIMIT
     then
       let newCount := add1 Timestamp_toPrimitive currentCount in
       doc_set be freeTierUsageRef (increment_payload newCount);;
       ret {| canProceed := true; message := free_message newCount |}
     else ret {| canProceed := false; message := limit_message |})
    (fun error =>
       ret {| canProceed := false; message := internal_error_message |}).

End Gate.

(* ===================================================================== *)
(** ** src/functions/index.js: the request handlers *)
(* ===================================================================== *)

(** A call that does not touch the store. *)
Definition lift {A} (o : outcome A) : M A := fun w => (o, w).

Section Orchestrator.
Variable StringToNumber_lt : string -> Z -> bool.
Variable Timestamp_toPrimitive : Z -> string.
Variable K_SERVICE : option string.
Variable be : backend.

(** The analysis payload ([req.body.data], [undefined] included) and the
    parsed answer of the model are opaque; [analysis_truthy] is JS
    truthiness of the payload. *)
Variable analysis : Type.
Variable analysis_truthy : analysis -> bool.
Variable ai_result : Type.

(** [admin.auth().verifyIdToken(token)], then [.uid]: the decoded uid,
    or a rejection. *)
Variable verifyIdToken : string -> outcome (option string).
(** [process.env.GEMINI_API_KEY] *)
Variable GEMINI_API_KEY : option string.
(** The prompt built from the payload. *)
Variable prompt_of : analysis -> string.
(** [ai.models.generateContent], then
    [response.candidates?.[0]?.content?.parts?.[0]?.text]. *)
Variable generateContent : string -> outcome (option string).
Variable JSON_parse : string -> outcome ai_result.

Record request : Type := {
  method : string;
  authorization : option string;
  data : analysis
}.

Inductive body : Type :=
| BError (error : string)
| BSuccess (msg : string) (result : ai_result).

Record response : Type := {
  code : nat;
  sent : body
}.

(** The Express copy (lines 108-154). *)
Definition runGeminiAnalysis (analysisData : analysis) : M ai_result :=
  if negb (truthy_str GEMINI_API_KEY) then
    throw (Error "API Key is missing. Cannot perform AI analysis.")
  else
    let prompt := prompt_of analysisData in
    try_catch
      (jsonText ← lift (generateContent prompt);
       if negb (truthy_str jsonText)
       then throw (Error "Gemini returned empty response.")
       else lift (JSON_parse (interp_str jsonText)))
      (fun error =>
         throw (Error "Could not process analysis via AI. Check API key and model output.")).

(** The cloud-function copy (lines 305-349): no check of the key. *)
Definition runGeminiAnalysis_gcf (analysisData : analysis) : M ai_result :=
  let prompt := prompt_of analysisData in
  try_catch
    (jsonText ← lift (generateContent prompt);
     if negb (truthy_str jsonText)
     then throw (Error "Gemini returned empty response.")
     else lift (JSON_parse (interp_str jsonText)))
    (fun error =>
       throw (Error "Could not process analysis via AI. Check API key and model output.")).

(** [req.headers.authorization ? req.headers.authorization.split('Bearer ')[1] : null] *)
Definition bearer_token (req : request) : option string :=
  if truthy_str (authorization req)
  then split_at1 "Bearer " (interp_str (authorization req))
  else None.

(** [app.post('/runAnalysis', ...)] (lines 159-200). *)
Definition runAnalysis (req : request) : M response :=
  let token := bearer_token req in
  let analysisData := data req in
  if (negb (truthy_str token) || negb (analysis_truthy analysisData))%bool then
    ret {| code := 400; sent := BError "Missing authorization token or analysis data." |}
  else
    auth ← try_catch
             (uid ← lift (verifyIdToken (interp_str token)); ret (Some uid))
             (fun error => ret None);
    match auth with
    | None =>
        ret {| code := 401; sent := BError "Unauthorized: Invalid authentication token." |}
    | Some userId =>
        authCheck ← checkSubscription StringToNumber_lt Timestamp_toPrimitive
                      K_SERVICE be userId;
        if negb (canProceed authCheck) then
          ret {| code := 403; sent := BError (message authCheck) |}
        else
          try_catch
            (aiResult ← runGeminiAnalysis analysisData;
             ret {| code := 200; sent := BSuccess (message authCheck) aiResult |})
            (fun error =>
               ret {| code := 500; sent := BError "Failed to generate AI analysis." |})
    end.

(** [exports.runAnalysis_function] (lines 355-403). *)
Definition runAnalysis_function (req : request) : M response :=
  if negb (String.eqb (method req) "POST") then
    ret {| code := 405; sent := BError "Method Not Allowed. Use POST." |}
  else
    let token := bearer_token req in
    let analysisData := data req in
    if (negb (truthy_str token) || negb (analysis_truthy analysisData))%bool then
      ret {| code := 400; sent := BError "Missing authorization token or analysis data." |}
    else
      auth ← try_catch
               (uid ← lift (verifyIdToken (interp_str token)); ret (Some uid))
               (fun error => ret None);
      match auth with
      | None =>
          ret {| code := 401; sent := BError "Unauthorized: Invalid authentication token." |}
      | Some userId =>
          authCheck ← checkSubscription_gcf StringToNumber_lt Timestamp_toPrimitive
                        K_SERVICE be userId;
          if negb (canProceed authCheck) then
            ret {| code := 403; sent := BError (message authCheck) |}
          else
            try_catch
              (aiResult ← runGeminiAnalysis_gcf analysisData;
               ret {| code := 200; sent := BSuccess (message authCheck) aiResult |})
              (fun error =>
                 ret {| code := 500; sent := BError "Failed to generate AI analysis." |})
      end.

End Orchestrator.

Arguments runGeminiAnalysis {analysis ai_result}.
Arguments runGeminiAnalysis_gcf {analysis ai_result}.
Arguments runAnalysis _ _ _ _ {analysis} _ {ai_result}.
Arguments runAnalysis_function _ _ _ _ {analysis} _ {ai_result}.
Arguments bearer_token {analysis} req.
Arguments BError {ai_result} error.
Arguments BSuccess {ai_result} msg result.
Arguments code {ai_result} r.
Arguments sent {ai_result} r.
Arguments method {analysis} r.
Arguments authorization {analysis} r.
Arguments data {analysis} r.

(* ===================================================================== *)
(** ** src/webhook_handler.js *)
(* ===================================================================== *)

Module Webhook.

(** [resource.subscriber] *)
Record subscriber : Type := {
  sub_custom_id : option string
}.

(** [data.resource] *)
Record resource : Type := {
  res_id : option string;
  res_subscriber : option subscriber;
  res_custom_id : option string
}.

(** [req.body] *)
Record webhook_body : Type := {
  event_type : option string;
  event_resource : option resource
}.

Record webhook_request : Type := {
  wh_method : string;
  wh_body : webhook_body
}.

(** [res.status(code).send(text)]; 204 is sent without a text. *)
Record webhook_response : Type := {
  wh_code : nat;
  wh_text : option string
}.

Section Handler.
Variable K_SERVICE : option string.
Variable be : backend.

(** [resource.subscriber.custom_id], read through [&&]. *)
Definition subscriber_custom_id (res : option resource) : option string :=
  r ← res; sb ← res_subscriber r; sub_custom_id sb.

(** [resource.custom_id], read through [&&]. *)
Definition resource_custom_id (res : option resource) : option string :=
  r ← res; res_custom_id r.

(** Lines 50-59: the Firebase uid carried as [custom_id]; [None] is
    the initial [null]. *)
Definition extract_user_id (res : option resource) : option string :=
  if truthy_str (subscriber_custom_id res) then subscriber_custom_id res
  else if truthy_str (resource_custom_id res) then resource_custom_id res
  else None.

Definition activated_payload (res : option resource) : payload :=
  [ ("tier", FValue (Some (VStr "pro")));
    ("status", FValue (Some (VStr "active")));
    ("paypal_id", FValue (VStr <$> (res ≫= res_id)));
    ("expires_at", FServerTimestamp);
    ("updated_at", FServerTimestamp) ].

Definition downgrade_payload (eventType : string) : payload :=
  [ ("tier", FValue (Some (VStr "free")));
    ("status", FValue (Some (VStr (toLowerCase eventType))));
    ("updated_at", FServerTimestamp) ].

Definition paypalWebhookHandler (req : webhook_request) : M webhook_response :=
  if negb (String.eqb (wh_method req) "POST") then
    ret {| wh_code := 405; wh_text := Some "Method Not Allowed" |}
  else
    let data := wh_body req in
    if negb (truthy_str (event_type data)) then
      ret {| wh_code := 400; wh_text := Some "Invalid webhook structure" |}
    else
      let eventType := interp_str (event_type data) in
      let resource := event_resource data in
      let userId := extract_user_id resource in
      if negb (truthy_str userId) then
        ret {| wh_code := 400; wh_text := Some "Missing user ID in payload" |}
      else
        let userSubscriptionRef := status_path K_SERVICE userId in
        try_catch
          ((if String.eqb eventType "BILLING.SUBSCRIPTION.ACTIVATED" then
              doc_set be userSubscriptionRef (activated_payload resource)
            else if (String.eqb eventType "BILLING.SUBSCRIPTION.CANCELLED"
                     || String.eqb eventType "BILLING.SUBSCRIPTION.EXPIRED")%bool then
              doc_set be userSubscriptionRef (downgrade_payload eventType)
            else ret tt);;
           ret {| wh_code := 204; wh_text := None |})
          (fun error =>
             ret {| wh_code := 500; wh_text := Some "Database Update Failed" |}).
End Handler.

End Webhook.
Export Webhook.

(* ===================================================================== *)
(** ** The data model, as read by the gate *)
(* ===================================================================== *)

(** The SubscriptionStatus of a subject: its document, or the default when
    the document is absent (index.js, line 64). *)
Definition subscription_status (K_SERVICE : option string) (w : world)
    (uid : option string) : gmap string value :=
  default default_status (docs w !! status_path K_SERVICE uid).

(** The UsageCounter of a subject: its document, or the default when the
    document is absent (index.js, line 65). *)
Definition usage_counter (K_SERVICE : option string) (w : world)
    (uid : option string) : gmap string value :=
  default default_usage (docs w !! usage_path K_SERVICE uid).

(** [tier = pro] and [status = active]. *)
Definition active_pro (d : gmap string value) : Prop :=
  d !! "tier" = Some (VStr "pro") ∧ d !! "status" = Some (VStr "active").

Definition is_active_pro (d : gmap string value) : bool :=
  strict_eq_str (d !! "tier") "pro" && strict_eq_str (d !! "status") "active".

(** The store calls made by a run that started in [w] and ended in [w']. *)
Definition calls_since (w w' : world) : list event :=
  drop (length (log w)) (log w').

(** A backend on which no call fails. *)
Definition reliable (now : Z) : backend :=
  {| get_fails := fun _ => false; set_fails := fun _ => false;
     server_time := now |}.

(** The store before anything was written. *)
Definition empty_world : world := {| docs := ∅; log := [] |}.

(** The world once the gate's two reads have been issued. *)
Definition reads_done (K_SERVICE : option string) (be : backend)
    (uid : option string) (w : world) : world :=
  record (EvGet (usage_path K_SERVICE uid)
                (negb (get_fails be (usage_path K_SERVICE uid))))
    (record (EvGet (status_path K_SERVICE uid)
                   (negb (get_fails be (status_path K_SERVICE uid)))) w).

(** The two reads of one evaluation, both successful. *)
Definition two_reads (K_SERVICE : option string) (uid : option string)
    : list event :=
  [ EvGet (status_path K_SERVICE uid) true;
    EvGet (usage_path K_SERVICE uid) true ].

(** Sample documents and stores, for the concrete instances below. *)
Definition status_doc (tier status : string) : gmap string value :=
  {[ "tier" := VStr tier; "status" := VStr status ]}.

Definition usage_doc (c : Z) : gmap string value :=
  {[ "count" := VNumber (Num c) ]}.

Definition world_of (l : list (string * gmap string value)) : world :=
  {| docs := list_to_map l; log := [] |}.

Definition u1_status : string :=
  "/artifacts/default-app-id/users/u1/subscriptions/status".

Definition u1_usage : string :=
  "/artifacts/default-app-id/users/u1/usage/analysis_count".

(** User "u1" on the free tier with [count = c]; as an active pro with
    [count = c]; and with a usage document that has no [count] field. *)
Definition world_free_at (c : Z) : world :=
  world_of [ (u1_status, status_doc "free" "unknown"); (u1_usage, usage_doc c) ].

Definition world_pro_at (c : Z) : world :=
  world_of [ (u1_status, status_doc "pro" "active"); (u1_usage, usage_doc c) ].

Definition world_without_count : world :=
  world_of [ (u1_usage, {[ "last_use" := VTimestamp 7 ]}) ].

(** String and object coercions of an engine, for the concrete instances:
    no sample count is a string or an object. *)
Definition sample_lt : string -> Z -> bool := fun _ _ => false.
Definition sample_prim : Z -> string := fun _ => "[object Object]".

(** The ways the AI call of [runGeminiAnalysis] fails: no API key, a
    transport error, an empty answer, or an answer that is not JSON. *)
Definition oracle_fails {analysis ai_result : Type}
    (GEMINI_API_KEY : option string) (prompt_of : analysis -> string)
    (generateContent : string -> outcome (option string))
    (JSON_parse : string -> outcome ai_result) (a : analysis) : Prop :=
  truthy_str GEMINI_API_KEY = false
  ∨ (∃ e, generateContent (prompt_of a) = Thrown e)
  ∨ (∃ t, generateContent (prompt_of a) = Returned t ∧ truthy_str t = false)
  ∨ (∃ t e, generateContent (prompt_of a) = Returned t
            ∧ JSON_parse (interp_str t) = Thrown e).

(** A sample webhook delivery for user "u1" and provider subscription
    "P1". *)
Definition sample_event (eventType : string) : webhook_request :=
  {| wh_method := "POST";
     wh_body :=
       {| event_type := Some eventType;
          event_resource :=
            Some {| res_id := Some "P1";
                    res_subscriber := Some {| sub_custom_id := Some "u1" |};
                    res_custom_id := None |} |} |}.

(** A backend on which exactly the reads of [path] fail. *)
Definition read_fault_at (path : string) : backend :=
  {| get_fails := fun p => String.eqb p path; set_fails := fun _ => false;
     server_time := 0 |}.

(** A sample analysis request, with a payload that is a string. *)
Definition sample_request : request string :=
  {| method := "POST"; authorization := Some "Bearer tok1"; data := "{}" |}.

(** Sample collaborators: the token "tok1" belongs to "u1"; the answer of
    the AI call is empty. *)
Definition sample_verify (token : string) : outcome (option string) :=
  if String.eqb token "tok1" then Returned (Some "u1")
  else Thrown (Error "invalid token").

Definition sample_generate (prompt : string) : outcome (option string) :=
  Returned None.

Definition sample_parse (text : string) : outcome string := Returned text.

Definition sample_truthy (payload : string) : bool :=
  negb (String.eqb payload "").

(* ===================================================================== *)
(** ** Schedules of evaluations *)
(* ===================================================================== *)

Section Schedules.
Variable StringToNumber_lt : string -> Z -> bool.
Variable Timestamp_toPrimitive : Z -> string.
Variable K_SERVICE : option string.
Variable be : backend.

(** [n] evaluations of the gate for one subject, one after the other, with
    their decisions in order. *)
Fixpoint evaluate_n (n : nat) (uid : option string) : M (list decision) :=
  match n with
  | O => ret []
  | S n' =>
      d ← checkSubscription StringToNumber_lt Timestamp_toPrimitive
             K_SERVICE be uid;
      ds ← evaluate_n n' uid;
      ret (d :: ds)
  end.

(** The two reads of [checkSubscription], as issued at line 62. *)
Definition gate_reads (uid : option string)
    : M (option (gmap string value) * option (gmap string value)) :=
  Promise_all2 (doc_get be (status_path K_SERVICE uid))
               (doc_get be (usage_path K_SERVICE uid)).

(** [checkSubscription] from the point where [await Promise.all(...)] has
    settled (lines 62-99): the rest of the [try] block, and its [catch]. *)
Definition resume_gate (uid : option string)
    (settled : outcome (option (gmap string value) * option (gmap string value)))
    : M decision :=
  let freeTierUsageRef := usage_path K_SERVICE uid in
  try_catch
    ('(statusSnap, usageSnap) ← lift settled;
     let statusData := default default_status statusSnap in
     let usageData := default default_usage usageSnap in
     let currentCount := usageData !! "count" in
     if (strict_eq_str (statusData !! "tier") "pro"
         && strict_eq_str (statusData !! "status") "active")%bool
     then ret {| canProceed := true; message := pro_message |}
     else if lt_num StringToNumber_lt Timestamp_toPrimitive
               currentCount FREE_TIER_LIMIT
     then
       let newCount := add1 Timestamp_toPrimitive currentCount in
       doc_set be freeTierUsageRef (increment_payload newCount);;
       ret {| canProceed := true; message := free_message newCount |}
     else ret {| canProceed := false; message := limit_message |})
    (fun error =>
       ret {| canProceed := false; message := internal_error_message |}).

(** Two evaluations for one subject that overlap: the reads of both are
    answered before either goes on. *)
Definition racing_pair (uid : option string) : M (decision * decision) :=
  readsA ← settle (gate_reads uid);
  readsB ← settle (gate_reads uid);
  dA ← resume_gate uid readsA;
  dB ← resume_gate uid readsB;
  ret (dA, dB).

End Schedules.

Section Cases.
Variable StringToNumber_lt : string -> Z -> bool.
Variable Timestamp_toPrimitive : Z -> string.
Variable K_SERVICE : option string.
Variable be : backend.

Local Abbreviation spath := (status_path K_SERVICE).
Local Abbreviation upath := (usage_path K_SERVICE).
Local Abbreviation lt5 v := (lt_num StringToNumber_lt Timestamp_toPrimitive v FREE_TIER_LIMIT).
Local Abbreviation succ v := (add1 Timestamp_toPrimitive v).
Local Abbreviation cnt w uid := (usage_counter K_SERVICE w uid !! "count").

(** Every way an evaluation can go, with the decision and the world it
    ends in. *)
Inductive gate_case (uid : option string) (w : world)
    : decision → world → Prop :=
| case_no_id :
    truthy_str uid = false →
    gate_case uid w {| canProceed := false; message := missing_id_message |} w
| case_read_fault :
    truthy_str uid = true →
    get_fails be (spath uid) = true ∨ get_fails be (upath uid) = true →
    gate_case uid w
      {| canProceed := false; message := internal_error_message |}
      {| docs := docs w;
         log := log w ++ [EvGet (spath uid) (negb (get_fails be (spath uid)));
                          EvGet (upath uid) (negb (get_fails be (upath uid)))] |}
| case_pro :
    truthy_str uid = true →
    is_active_pro (subscription_status K_SERVICE w uid) = true →
    gate_case uid w
      {| canProceed := true; message := pro_message |}
      {| docs := docs w; log := log w ++ two_reads K_SERVICE uid |}
| case_free :
    truthy_str uid = true →
    is_active_pro (subscription_status K_SERVICE w uid) = false →
    lt5 (cnt w uid) = true →
    gate_case uid w
      {| canProceed := true; message := free_message (succ (cnt w uid)) |}
      {| docs := <[upath uid :=
                     <["last_use" := VTimestamp (server_time be)]>
                       (<["count" := value_of_prim (succ (cnt w uid))]>
                          (default ∅ (docs w !! upath uid)))]> (docs w);
         log := log w ++ two_reads K_SERVICE uid
                  ++ [EvSet (upath uid) (increment_payload (succ (cnt w uid))) true] |}
| case_write_fault :
    truthy_str uid = true →
    is_active_pro (subscription_status K_SERVICE w uid) = false →
    lt5 (cnt w uid) = true →
    gate_case uid w
      {| canProceed := false; message := internal_error_message |}
      {| docs := docs w;
         log := log w ++ two_reads K_SERVICE uid
                  ++ [EvSet (upath uid) (increment_payload (succ (cnt w uid))) false] |}
| case_limit :
    truthy_str uid = true →
    is_active_pro (subscription_status K_SERVICE w uid) = false →
    lt5 (cnt w uid) = false →
    gate_case uid w
      {| canProceed := false; message := limit_message |}
      {| docs := docs w; log := log w ++ two_reads K_SERVICE uid |}.

End Cases.

(** The update the webhook makes for an event type (lines 74-97): the
    data of its [set] call, or [None] for an event that is only
    acknowledged. *)
Definition webhook_payload (eventType : string) (res : option resource)
    : option payload :=
  if String.eqb eventType "BILLING.SUBSCRIPTION.ACTIVATED"
  then Some (activated_payload res)
  else if (String.eqb eventType "BILLING.SUBSCRIPTION.CANCELLED"
           || String.eqb eventType "BILLING.SUBSCRIPTION.EXPIRED")%bool
  then Some (downgrade_payload eventType)
  else None.

(** The value a merge-write leaves in field [k]: that of the last entry
    for [k] in the data, if there is one with a value. *)
Fixpoint written (now : Z) (p : payload) (k : string) : option value :=
  match p with
  | [] => None
  | (k', fw) :: p' =>
      match written now p' k with
      | Some v => Some v
      | None => if String.eqb k' k then resolve now fw else None
      end
  end.

(** Sample analysis requests: without an [Authorization] header, with a
    token that does not verify, and sent with GET. *)
Definition request_without_header : request string :=
  {| method := "POST"; authorization := None; data := "{}" |}.

Definition request_with_bad_token : request string :=
  {| method := "POST"; authorization := Some "Bearer forged"; data := "{}" |}.

Definition get_request : request string :=
  {| method := "GET"; authorization := Some "Bearer tok1"; data := "{}" |}.

(** A subject's count, when it is a number. *)
Definition count_is (K_SERVICE : option string) (w : world)
    (uid : option string) (c : Z) : Prop :=
  usage_counter K_SERVICE w uid !! "count" = Some (VNumber (Num c)).

(** The path an event is about. *)
Definition event_path (e : event) : string :=
  match e with
  | EvGet p _ => p
  | EvSet p _ _ => p
  end.

(** The codes the analysis handlers answer with. *)
Definition analysis_codes : list nat := [200; 400; 401; 403; 405; 500]%nat.

(** The codes the webhook answers with. *)
Definition webhook_codes : list nat := [204; 400; 405; 500]%nat.

(** A backend on which exactly the writes to [path] fail. *)
Definition write_fault_at (path : string) : backend :=
  {| get_fails := fun _ => false; set_fails := fun p => String.eqb p path;
     server_time := 0 |}.

(** User "u1" on the free tier whose count is the string [s]; and whose
    count is [null]. *)
Definition world_string_count (s : string) : world :=
  world_of [ (u1_status, status_doc "free" "unknown");
             (u1_usage, {[ "count" := VStr s ]}) ].

Definition world_null_count : world :=
  world_of [ (u1_status, status_doc "free" "unknown");
             (u1_usage, {[ "count" := VNull ]}) ].

(** An engine for which the strings "0" to "4" convert to numbers below 5. *)
Definition digit_lt : string -> Z -> bool :=
  fun s n => (existsb (String.eqb s) ["0"; "1"; "2"; "3"; "4"] && (5 <=? n))%bool.

(** A webhook delivery without any [custom_id]. *)
Definition anonymous_event (eventType : string) : webhook_request :=
  {| wh_method := "POST";
     wh_body :=
       {| event_type := Some eventType;
          event_resource :=
            Some {| res_id := Some "P1";
                    res_subscriber := Some {| sub_custom_id := None |};
                    res_custom_id := None |} |} |}.

(** An AI call that answers with the text "{}". *)
Definition answering_generate (prompt : string) : outcome (option string) :=
  Returned (Some "{}").

(* ===================================================================== *)
(** ** Properties of the gate *)
(* ===================================================================== *)

Lemma strict_eq_str_true v s : strict_eq_str v s = true ↔ v = Some (VStr s).
Proof.
  unfold strict_eq_str. destruct v as [[| | |s'|]|]; try (split; [discriminate|congruence]).
  rewrite String.eqb_eq. split; congruence.
Qed.

Lemma is_active_pro_true d : is_active_pro d = true ↔ active_pro d.
Proof.
  unfold is_active_pro, active_pro.
  rewrite andb_true_iff, !strict_eq_str_true. tauto.
Qed.

Lemma is_active_pro_false d : ¬ active_pro d → is_active_pro d = false.
Proof.
  intros H. destruct (is_active_pro d) eqn:E; [|done].
  exfalso. by apply H, is_active_pro_true.
Qed.

Lemma pretty_limit : pretty FREE_TIER_LIMIT = "5".
Proof. vm_compute. reflexivity. Qed.

Section GateFacts.
Variable StringToNumber_lt : string -> Z -> bool.
Variable Timestamp_toPrimitive : Z -> string.
Variable K_SERVICE : option string.
Variable be : backend.

Local Abbreviation gate := (checkSubscription StringToNumber_lt Timestamp_toPrimitive K_SERVICE be).
Local Abbreviation gate_gcf := (checkSubscription_gcf StringToNumber_lt Timestamp_toPrimitive K_SERVICE be).
Local Abbreviation spath := (status_path K_SERVICE).
Local Abbreviation upath := (usage_path K_SERVICE).
Local Abbreviation lt5 v := (lt_num StringToNumber_lt Timestamp_toPrimitive v FREE_TIER_LIMIT).
Local Abbreviation succ v := (add1 Timestamp_toPrimitive v).
Local Abbreviation after_reads := (reads_done K_SERVICE be).

Lemma reads_ok p1 p2 w :
  get_fails be p1 = false → get_fails be p2 = false →
  Promise_all2 (doc_get be p1) (doc_get be p2) w
  = (Returned (docs w !! p1, docs w !! p2),
     record (EvGet p2 true) (record (EvGet p1 true) w)).
Proof.
  intros H1 H2. unfold Promise_all2, bind, settle, doc_get.
  rewrite H1, H2. reflexivity.
Qed.

Lemma reads_fail p1 p2 w :
  get_fails be p1 = true ∨ get_fails be p2 = true →
  ∃ e, Promise_all2 (doc_get be p1) (doc_get be p2) w
       = (Thrown e,
          record (EvGet p2 (negb (get_fails be p2)))
            (record (EvGet p1 (negb (get_fails be p1))) w)).
Proof.
  intros H. unfold Promise_all2, bind, settle, doc_get.
  destruct (get_fails be p1), (get_fails be p2); simpl;
    try (eexists; reflexivity).
  destruct H; discriminate.
Qed.

(** The gate, when both reads succeed. *)
Lemma gate_run uid w :
  truthy_str uid = true →
  get_fails be (spath uid) = false →
  get_fails be (upath uid) = false →
  gate uid w =
    let w1 := after_reads uid w in
    let cnt := usage_counter K_SERVICE w uid !! "count" in
    if is_active_pro (subscription_status K_SERVICE w uid)
    then (Returned {| canProceed := true; message := pro_message |}, w1)
    else if lt5 cnt
    then match doc_set be (upath uid) (increment_payload (succ cnt)) w1 with
         | (Returned _, w2) =>
             (Returned {| canProceed := true; message := free_message (succ cnt) |}, w2)
         | (Thrown _, w2) =>
             (Returned {| canProceed := false; message := internal_error_message |}, w2)
         end
    else (Returned {| canProceed := false; message := limit_message |}, w1).
Proof.
  intros Hid Hs Hu. unfold checkSubscription, reads_done.
  rewrite Hid, Hs, Hu. cbn [negb].
  unfold try_catch, mbind, M_bind, bind at 1.
  rewrite (reads_ok _ _ _ Hs Hu).
  unfold subscription_status, usage_counter, is_active_pro. cbv zeta.
  destruct (strict_eq_str _ "pro" && strict_eq_str _ "active"); [reflexivity|].
  destruct (lt5 _); [|reflexivity].
  unfold bind. destruct (doc_set _ _ _ _) as [[[]|e] w2]; reflexivity.
Qed.

(** The gate, when a read fails. *)
Lemma gate_read_fault uid w :
  truthy_str uid = true →
  get_fails be (spath uid) = true ∨ get_fails be (upath uid) = true →
  gate uid w =
    (Returned {| canProceed := false; message := internal_error_message |},
     after_reads uid w).
Proof.
  intros Hid Hf. unfold checkSubscription, reads_done. rewrite Hid. cbn [negb].
  unfold try_catch, mbind, M_bind, bind at 1.
  destruct (reads_fail _ _ w Hf) as [e ->]. reflexivity.
Qed.

Lemma doc_set_ok path data0 w :
  has_undefined data0 = false →
  set_fails be path = false →
  doc_set be path data0 w
  = (Returned tt,
     record (EvSet path data0 true)
       {| docs := <[path := merge_fields (server_time be) data0
                               (default ∅ (docs w !! path))]> (docs w);
          log := log w |}).
Proof. intros Hu Hf. unfold doc_set. rewrite Hu, Hf. reflexivity. Qed.

Lemma doc_set_fault path data0 w :
  set_fails be path = true →
  ∃ e, doc_set be path data0 w = (Thrown e, record (EvSet path data0 false) w).
Proof.
  intros Hf. unfold doc_set. rewrite Hf, orb_true_r. eexists; reflexivity.
Qed.

Lemma increment_defined p : has_undefined (increment_payload p) = false.
Proof. reflexivity. Qed.

Lemma calls_since_app w w' evs :
  log w' = log w ++ evs → calls_since w w' = evs.
Proof. intros H. unfold calls_since. rewrite H. by rewrite drop_app_length. Qed.

Lemma reads_done_ok uid w :
  get_fails be (spath uid) = false →
  get_fails be (upath uid) = false →
  after_reads uid w
  = {| docs := docs w; log := log w ++ two_reads K_SERVICE uid |}.
Proof.
  intros Hs Hu. unfold reads_done, record, two_reads. rewrite Hs, Hu. simpl.
  by rewrite <- app_assoc.
Qed.

(** The free-tier branch with a successful write. *)
Lemma gate_free_grant uid w :
  truthy_str uid = true →
  get_fails be (spath uid) = false →
  get_fails be (upath uid) = false →
  set_fails be (upath uid) = false →
  is_active_pro (subscription_status K_SERVICE w uid) = false →
  lt5 (usage_counter K_SERVICE w uid !! "count") = true →
  let newCount := succ (usage_counter K_SERVICE w uid !! "count") in
  gate uid w =
    (Returned {| canProceed := true; message := free_message newCount |},
     {| docs := <[upath uid :=
                    <["last_use" := VTimestamp (server_time be)]>
                      (<["count" := value_of_prim newCount]>
                         (default ∅ (docs w !! upath uid)))]> (docs w);
        log := log w ++ two_reads K_SERVICE uid
                 ++ [EvSet (upath uid) (increment_payload newCount) true] |}).
Proof.
  intros Hid Hs Hu Hw Hpro Hlt. cbv zeta.
  rewrite (gate_run uid w Hid Hs Hu). cbv zeta. rewrite Hpro, Hlt.
  rewrite (doc_set_ok _ _ _ (increment_defined _) Hw).
  rewrite (reads_done_ok uid w Hs Hu). unfold record. simpl.
  by rewrite <- app_assoc.
Qed.

(** C1. A subject that is not an active pro and whose count is an integer
    below 5 is admitted with reason "Free tier usage: {count+1}/5 analyses
    used."; the only write is the merge-write of [count + 1] (with the
    server's timestamp) to the subject's usage document, whose other fields
    and all other documents stay.  In particular a fresh subject, with
    neither document, is admitted and gets [count = 1]. *)
Theorem C1_free_tier_grants_and_increments (uid : option string) (w : world) :
  truthy_str uid = true →
  get_fails be (spath uid) = false →
  get_fails be (upath uid) = false →
  set_fails be (upath uid) = false →
  (∀ c : Z,
     ¬ active_pro (subscription_status K_SERVICE w uid) →
     usage_counter K_SERVICE w uid !! "count" = Some (VNumber (Num c)) →
     MIN_SAFE_INTEGER ≤ c → c < 5 →
     ∃ w',
       gate uid w =
         (Returned {| canProceed := true;
                      message := "Free tier usage: " +:+ pretty (c + 1)
                                   +:+ "/5 analyses used." |}, w')
       ∧ calls_since w w' =
           two_reads K_SERVICE uid
             ++ [EvSet (upath uid)
                   [("count", FValue (Some (VNumber (Num (c + 1)))));
                    ("last_use", FServerTimestamp)] true]
       ∧ usage_counter K_SERVICE w' uid !! "count" = Some (VNumber (Num (c + 1)))
       ∧ usage_counter K_SERVICE w' uid !! "last_use"
           = Some (VTimestamp (server_time be))
       ∧ (∀ f, f ≠ "count" → f ≠ "last_use" →
            (docs w' !! upath uid) ≫= (.!! f) = (docs w !! upath uid) ≫= (.!! f))
       ∧ (∀ p, p ≠ upath uid → docs w' !! p = docs w !! p))
  ∧ (docs w !! spath uid = None → docs w !! upath uid = None →
     ∃ w',
       gate uid w =
         (Returned {| canProceed := true;
                      message := "Free tier usage: 1/5 analyses used." |}, w')
       ∧ docs w' !! upath uid
           = Some {[ "count" := VNumber (Num 1);
                     "last_use" := VTimestamp (server_time be) ]}).
Proof.
  intros Hid Hs Hu Hw. split.
  - intros c Hpro Hc Hlo Hhi.
    pose proof (gate_free_grant uid w Hid Hs Hu Hw (is_active_pro_false _ Hpro)) as Hrun.
    rewrite Hc in Hrun. cbv zeta in Hrun. simpl in Hrun.
    assert ((c <? FREE_TIER_LIMIT) = true) as Hb by (apply Z.ltb_lt; unfold FREE_TIER_LIMIT; lia).
    specialize (Hrun Hb). eexists. split; [|split; [|split; [|split; [|split]]]].
    + rewrite Hrun. unfold free_message. simpl interp_prim.
      rewrite pretty_limit. reflexivity.
    + apply calls_since_app. simpl. reflexivity.
    + unfold usage_counter. simpl docs. rewrite lookup_insert_eq. simpl.
      rewrite lookup_insert_ne by done. by rewrite lookup_insert_eq.
    + unfold usage_counter. simpl docs. rewrite lookup_insert_eq. simpl.
      by rewrite lookup_insert_eq.
    + intros f Hf1 Hf2. simpl docs. rewrite lookup_insert_eq. simpl.
      rewrite !lookup_insert_ne by done.
      destruct (docs w !! upath uid); simpl; [done|]. by rewrite lookup_empty.
    + intros p0 Hp. simpl docs. by rewrite lookup_insert_ne.
  - intros Hns Hnu.
    assert (is_active_pro (subscription_status K_SERVICE w uid) = false) as Hpro
      by (unfold subscription_status; rewrite Hns; reflexivity).
    pose proof (gate_free_grant uid w Hid Hs Hu Hw Hpro) as Hrun.
    unfold usage_counter in Hrun. rewrite Hnu in Hrun.
    specialize (Hrun eq_refl). cbv zeta in Hrun.
    eexists. split.
    + rewrite Hrun. reflexivity.
    + simpl docs. rewrite lookup_insert_eq. reflexivity.
Qed.


(** C2. A subject with [tier = pro] and [status = active] is admitted with
    reason "Pro subscription active.", whatever the usage document holds;
    the evaluation makes the two reads and no write, and leaves every
    document as it was. *)
Theorem C2_active_pro_passes_without_write (uid : option string) (w : world) :
  truthy_str uid = true →
  get_fails be (spath uid) = false →
  get_fails be (upath uid) = false →
  active_pro (subscription_status K_SERVICE w uid) →
  ∃ w',
    gate uid w =
      (Returned {| canProceed := true; message := "Pro subscription active." |}, w')
    ∧ calls_since w w' = two_reads K_SERVICE uid
    ∧ writes (calls_since w w') = []
    ∧ docs w' = docs w.
Proof.
  intros Hid Hs Hu Hpro.
  rewrite (gate_run uid w Hid Hs Hu). cbv zeta.
  apply is_active_pro_true in Hpro. rewrite Hpro.
  rewrite (reads_done_ok uid w Hs Hu).
  eexists. split; [reflexivity|].
  assert (calls_since w {| docs := docs w; log := log w ++ two_reads K_SERVICE uid |}
          = two_reads K_SERVICE uid) as Hc by (by apply calls_since_app).
  rewrite Hc. repeat split.
Qed.

(** The gate's refusal at the limit: for any count that does not compare
    below 5, a subject that is not an active pro is refused; two reads, no
    write, nothing changed. *)
Lemma gate_limit_deny uid w :
  truthy_str uid = true →
  get_fails be (spath uid) = false →
  get_fails be (upath uid) = false →
  is_active_pro (subscription_status K_SERVICE w uid) = false →
  lt5 (usage_counter K_SERVICE w uid !! "count") = false →
  gate uid w =
    (Returned {| canProceed := false;
                 message := "Free tier limit of 5 analyses exceeded. Please upgrade to Pro." |},
     {| docs := docs w; log := log w ++ two_reads K_SERVICE uid |}).
Proof.
  intros Hid Hs Hu Hpro Hlt.
  rewrite (gate_run uid w Hid Hs Hu). cbv zeta. rewrite Hpro, Hlt.
  rewrite (reads_done_ok uid w Hs Hu). unfold limit_message.
  rewrite pretty_limit. reflexivity.
Qed.

(** C3. A subject that is not an active pro and whose count is 5 or more
    is refused with reason "Free tier limit of 5 analyses exceeded. Please
    upgrade to Pro."; no write is made and every document, the usage
    counter among them, stays as it was. *)
Theorem C3_limit_reached_denies_without_write
    (uid : option string) (w : world) (c : Z) :
  truthy_str uid = true →
  get_fails be (spath uid) = false →
  get_fails be (upath uid) = false →
  ¬ active_pro (subscription_status K_SERVICE w uid) →
  usage_counter K_SERVICE w uid !! "count" = Some (VNumber (Num c)) →
  5 ≤ c →
  ∃ w',
    gate uid w =
      (Returned {| canProceed := false;
                   message := "Free tier limit of 5 analyses exceeded. Please upgrade to Pro." |},
       w')
    ∧ writes (calls_since w w') = []
    ∧ docs w' = docs w
    ∧ usage_counter K_SERVICE w' uid = usage_counter K_SERVICE w uid.
Proof.
  intros Hid Hs Hu Hpro Hc Hge.
  eexists. split.
  - apply (gate_limit_deny uid w Hid Hs Hu (is_active_pro_false _ Hpro)).
    rewrite Hc. simpl. apply Z.ltb_ge. unfold FREE_TIER_LIMIT. lia.
  - erewrite calls_since_app by reflexivity. repeat split.
Qed.

(** C10. When the usage document exists but has no [count] field, a subject
    that is not an active pro is refused with the limit-exceeded reason and
    nothing is written: the [{ count: 0 }] default stands in for an absent
    document only, and the [undefined] count of a document without the
    field does not compare below 5. *)
Theorem C10_missing_count_field_denies
    (uid : option string) (w : world) (ud : gmap string value) :
  truthy_str uid = true →
  get_fails be (spath uid) = false →
  get_fails be (upath uid) = false →
  ¬ active_pro (subscription_status K_SERVICE w uid) →
  docs w !! upath uid = Some ud →
  ud !! "count" = None →
  ∃ w',
    gate uid w =
      (Returned {| canProceed := false;
                   message := "Free tier limit of 5 analyses exceeded. Please upgrade to Pro." |},
       w')
    ∧ writes (calls_since w w') = []
    ∧ docs w' = docs w.
Proof.
  intros Hid Hs Hu Hpro Hdoc Hcnt.
  eexists. split.
  - apply (gate_limit_deny uid w Hid Hs Hu (is_active_pro_false _ Hpro)).
    unfold usage_counter. rewrite Hdoc. simpl. rewrite Hcnt. reflexivity.
  - erewrite calls_since_app by reflexivity. repeat split.
Qed.


(** The free-tier branch when the write fails: refused, nothing changed. *)
Lemma gate_write_fault uid w :
  truthy_str uid = true →
  get_fails be (spath uid) = false →
  get_fails be (upath uid) = false →
  is_active_pro (subscription_status K_SERVICE w uid) = false →
  lt5 (usage_counter K_SERVICE w uid !! "count") = true →
  set_fails be (upath uid) = true →
  ∃ w',
    gate uid w =
      (Returned {| canProceed := false; message := internal_error_message |}, w')
    ∧ existsb raised (calls_since w w') = true
    ∧ docs w' = docs w.
Proof.
  intros Hid Hs Hu Hpro Hlt Hw.
  rewrite (gate_run uid w Hid Hs Hu). cbv zeta. rewrite Hpro, Hlt.
  destruct (doc_set_fault (upath uid)
              (increment_payload (succ (usage_counter K_SERVICE w uid !! "count")))
              (after_reads uid w) Hw) as [e ->].
  rewrite (reads_done_ok uid w Hs Hu).
  eexists. split; [reflexivity|]. split; [|reflexivity].
  erewrite calls_since_app; [|simpl; rewrite <- app_assoc; reflexivity].
  reflexivity.
Qed.

Lemma calls_since_refl w : calls_since w w = [].
Proof. unfold calls_since. apply drop_all. Qed.

(** C5. If a read or a write of the quota store raises during an
    evaluation, the gate returns the refusal with reason "Internal server
    error during authorization check."; a storage fault never admits. *)
Theorem C5_storage_fault_denies
    (uid : option string) (w w' : world) (r : outcome decision) :
  gate uid w = (r, w') →
  existsb raised (calls_since w w') = true →
  r = Returned {| canProceed := false;
                  message := "Internal server error during authorization check." |}.
Proof.
  intros Hrun Hraised.
  destruct (truthy_str uid) eqn:Hid.
  2:{ unfold checkSubscription in Hrun. rewrite Hid in Hrun. simpl in Hrun.
      unfold ret in Hrun. injection Hrun as <- <-.
      rewrite calls_since_refl in Hraised. discriminate. }
  destruct (get_fails be (spath uid)) eqn:Hs.
  { rewrite (gate_read_fault uid w Hid (or_introl Hs)) in Hrun.
    by injection Hrun as <- _. }
  destruct (get_fails be (upath uid)) eqn:Hu.
  { rewrite (gate_read_fault uid w Hid (or_intror Hu)) in Hrun.
    by injection Hrun as <- _. }
  rewrite (gate_run uid w Hid Hs Hu) in Hrun. cbv zeta in Hrun.
  rewrite (reads_done_ok uid w Hs Hu) in Hrun.
  destruct (is_active_pro _).
  { injection Hrun as <- <-.
    erewrite calls_since_app in Hraised by reflexivity. discriminate. }
  destruct (lt5 _).
  2:{ injection Hrun as <- <-.
      erewrite calls_since_app in Hraised by reflexivity. discriminate. }
  destruct (set_fails be (upath uid)) eqn:Hw.
  - destruct (doc_set_fault (upath uid)
                (increment_payload (succ (usage_counter K_SERVICE w uid !! "count")))
                {| docs := docs w; log := log w ++ two_reads K_SERVICE uid |} Hw)
      as [e He].
    rewrite He in Hrun. by injection Hrun as <- _.
  - rewrite (doc_set_ok _ _ _ (increment_defined _) Hw) in Hrun.
    injection Hrun as <- <-.
    erewrite calls_since_app in Hraised
      by (unfold record; simpl; rewrite <- app_assoc; reflexivity).
    discriminate.
Qed.

(** C4, as the code has it.  At [count = 5] a free-tier subject is refused
    with reason "Free tier limit of 5 analyses exceeded. Please upgrade to
    Pro.", which does not contain "5/5"; the text "5/5" is in the reason of
    the admission that took the count from 4 to 5. *)
Theorem C4_refusal_at_five_has_limit_reason (uid : option string) (w : world) :
  truthy_str uid = true →
  get_fails be (spath uid) = false →
  get_fails be (upath uid) = false →
  subscription_status K_SERVICE w uid !! "tier" = Some (VStr "free") →
  (usage_counter K_SERVICE w uid !! "count" = Some (VNumber (Num 5)) →
   ∃ w',
     gate uid w =
       (Returned {| canProceed := false;
                    message := "Free tier limit of 5 analyses exceeded. Please upgrade to Pro." |},
        w')
     ∧ includes "5/5" "Free tier limit of 5 analyses exceeded. Please upgrade to Pro." = false
     ∧ docs w' = docs w)
  ∧ (usage_counter K_SERVICE w uid !! "count" = Some (VNumber (Num 4)) →
     set_fails be (upath uid) = false →
     ∃ d w',
       gate uid w = (Returned d, w')
       ∧ canProceed d = true
       ∧ message d = "Free tier usage: 5/5 analyses used."
       ∧ includes "5/5" (message d) = true).
Proof.
  intros Hid Hs Hu Htier.
  assert (is_active_pro (subscription_status K_SERVICE w uid) = false) as Hpro
    by (unfold is_active_pro; rewrite Htier; reflexivity).
  split.
  - intros Hc. eexists. split.
    + apply (gate_limit_deny uid w Hid Hs Hu Hpro). rewrite Hc. reflexivity.
    + split; reflexivity.
  - intros Hc Hw.
    pose proof (gate_free_grant uid w Hid Hs Hu Hw Hpro) as Hrun.
    rewrite Hc in Hrun. specialize (Hrun eq_refl). cbv zeta in Hrun.
    do 2 eexists. split; [exact Hrun|]. repeat split.
Qed.

(** The two copies of the gate agree on every subject id that is neither
    absent nor empty, for every store and every pattern of faults. *)
Lemma checkSubscription_copies_agree (uid : option string) (w : world) :
  truthy_str uid = true →
  gate_gcf uid w = gate uid w.
Proof.
  intros Hid. unfold checkSubscription, checkSubscription_gcf.
  rewrite Hid. cbn [negb].
  unfold try_catch, mbind, M_bind, bind at 1 3.
  destruct (Promise_all2 _ _ w) as [[[ss [ud|]]|e] w1]; reflexivity.
Qed.

End GateFacts.

(** C9, at the input where it fails.  With no subject id the Express copy
    refuses at once, with reason "User ID is required for authorization."
    and without touching the store; the cloud-function copy has no such
    check: on an empty store it reads the documents of a user named
    "undefined", admits, and writes [count = 1] there. *)
Theorem C9_copies_differ_without_subject_id
    (StringToNumber_lt : string -> Z -> bool) (Timestamp_toPrimitive : Z -> string)
    (K_SERVICE : option string) (now : Z) :
  checkSubscription StringToNumber_lt Timestamp_toPrimitive K_SERVICE
      (reliable now) None empty_world
    = (Returned {| canProceed := false;
                   message := "User ID is required for authorization." |},
       empty_world)
  ∧ checkSubscription_gcf StringToNumber_lt Timestamp_toPrimitive K_SERVICE
      (reliable now) None empty_world
    = (Returned {| canProceed := true;
                   message := "Free tier usage: 1/5 analyses used." |},
       {| docs := {[ usage_path K_SERVICE None :=
                       {[ "count" := VNumber (Num 1);
                          "last_use" := VTimestamp now ]} ]};
          log := two_reads K_SERVICE None
                   ++ [EvSet (usage_path K_SERVICE None)
                         [("count", FValue (Some (VNumber (Num 1))));
                          ("last_use", FServerTimestamp)] true] |}).
Proof.
  split; [reflexivity|].
  unfold checkSubscription_gcf, try_catch, mbind, M_bind, bind at 1.
  rewrite reads_ok by reflexivity. unfold empty_world. cbn [docs].
  rewrite !lookup_empty. reflexivity.
Qed.

(* ===================================================================== *)
(** ** Properties of the request handler *)
(* ===================================================================== *)

Section OrchestratorFacts.
Variable StringToNumber_lt : string -> Z -> bool.
Variable Timestamp_toPrimitive : Z -> string.
Variable K_SERVICE : option string.
Variable be : backend.
Variable analysis : Type.
Variable analysis_truthy : analysis -> bool.
Variable ai_result : Type.
Variable verifyIdToken : string -> outcome (option string).
Variable GEMINI_API_KEY : option string.
Variable prompt_of : analysis -> string.
Variable generateContent : string -> outcome (option string).
Variable JSON_parse : string -> outcome ai_result.

Local Abbreviation gate := (checkSubscription StringToNumber_lt Timestamp_toPrimitive K_SERVICE be).
Local Abbreviation oracle := (runGeminiAnalysis GEMINI_API_KEY prompt_of generateContent JSON_parse).
Local Abbreviation handler :=
  (runAnalysis StringToNumber_lt Timestamp_toPrimitive K_SERVICE be
     analysis_truthy verifyIdToken GEMINI_API_KEY prompt_of generateContent JSON_parse).

(** A failing AI call throws and leaves the store alone. *)
Lemma runGeminiAnalysis_fails (a : analysis) :
  oracle_fails GEMINI_API_KEY prompt_of generateContent JSON_parse a →
  ∃ e, ∀ w, oracle a w = (Thrown e, w).
Proof.
  unfold runGeminiAnalysis.
  intros [Hkey | [[e He] | [(t & Ht & Hempty) | (t & e & Ht & Hp)]]].
  - rewrite Hkey. eexists. intros w. reflexivity.
  - destruct (truthy_str GEMINI_API_KEY); eexists; intros w;
      [|reflexivity].
    unfold try_catch, mbind, M_bind, bind, lift. rewrite He. reflexivity.
  - destruct (truthy_str GEMINI_API_KEY); eexists; intros w;
      [|reflexivity].
    unfold try_catch, mbind, M_bind, bind, lift. rewrite Ht, Hempty. reflexivity.
  - destruct (truthy_str GEMINI_API_KEY); eexists; intros w;
      [|reflexivity].
    unfold try_catch, mbind, M_bind, bind, lift. rewrite Ht.
    destruct (truthy_str t); simpl; [rewrite Hp|]; reflexivity.
Qed.

(** Past authentication, the handler is the gate followed by the AI call. *)
Lemma runAnalysis_authenticated (req : request analysis) (tok : string)
    (uid : option string) (w : world) :
  bearer_token req = Some tok →
  truthy_str (Some tok) = true →
  analysis_truthy (data req) = true →
  verifyIdToken tok = Returned uid →
  handler req w =
    match gate uid w with
    | (Returned authCheck, w1) =>
        if negb (canProceed authCheck)
        then (Returned {| code := 403; sent := BError (message authCheck) |}, w1)
        else match oracle (data req) w1 with
             | (Returned aiResult, w2) =>
                 (Returned {| code := 200;
                              sent := BSuccess (message authCheck) aiResult |}, w2)
             | (Thrown _, w2) =>
                 (Returned {| code := 500;
                              sent := BError "Failed to generate AI analysis." |}, w2)
             end
    | (Thrown e, w1) => (Thrown e, w1)
    end.
Proof.
  intros Htok Htruthy Hdata Hverify. unfold runAnalysis.
  rewrite Htok, Htruthy, Hdata. cbn [negb orb interp_str].
  unfold try_catch, mbind, M_bind, bind, lift, ret. rewrite Hverify.
  destruct (gate uid w) as [[authCheck|e] w1]; [|reflexivity].
  destruct (negb (canProceed authCheck)); [reflexivity|].
  destruct (oracle (data req) w1) as [[aiResult|e] w2]; reflexivity.
Qed.

(** C8. When a free-tier request has been admitted and the AI call then
    fails, the handler answers 500 "Failed to generate AI analysis." and
    the store is exactly as the gate left it: the usage counter holds the
    incremented count, and the increment is the only write of the whole
    request. *)
Theorem C8_failed_analysis_keeps_the_increment
    (req : request analysis) (tok : string) (uid : option string) (w : world)
    (c : Z) :
  bearer_token req = Some tok →
  truthy_str (Some tok) = true →
  analysis_truthy (data req) = true →
  verifyIdToken tok = Returned uid →
  truthy_str uid = true →
  get_fails be (status_path K_SERVICE uid) = false →
  get_fails be (usage_path K_SERVICE uid) = false →
  set_fails be (usage_path K_SERVICE uid) = false →
  ¬ active_pro (subscription_status K_SERVICE w uid) →
  usage_counter K_SERVICE w uid !! "count" = Some (VNumber (Num c)) →
  MIN_SAFE_INTEGER ≤ c → c < 5 →
  oracle_fails GEMINI_API_KEY prompt_of generateContent JSON_parse (data req) →
  ∃ d w',
    gate uid w = (Returned d, w')
    ∧ canProceed d = true
    ∧ handler req w =
        (Returned {| code := 500;
                     sent := BError "Failed to generate AI analysis." |}, w')
    ∧ usage_counter K_SERVICE w' uid !! "count" = Some (VNumber (Num (c + 1)))
    ∧ writes (calls_since w w') =
        [EvSet (usage_path K_SERVICE uid)
           [("count", FValue (Some (VNumber (Num (c + 1)))));
            ("last_use", FServerTimestamp)] true].
Proof.
  intros Htok Htruthy Hdata Hverify Hid Hs Hu Hw Hpro Hc Hlo Hhi Hfail.
  pose proof (gate_free_grant StringToNumber_lt Timestamp_toPrimitive
                K_SERVICE be uid w Hid Hs Hu Hw (is_active_pro_false _ Hpro))
    as Hgate.
  rewrite Hc in Hgate. cbv zeta in Hgate. simpl in Hgate.
  assert ((c <? FREE_TIER_LIMIT) = true) as Hb
    by (apply Z.ltb_lt; unfold FREE_TIER_LIMIT; lia).
  specialize (Hgate Hb).
  destruct (runGeminiAnalysis_fails (data req) Hfail) as [e He].
  do 2 eexists. split; [exact Hgate|]. split; [reflexivity|].
  split; [|split].
  - rewrite (runAnalysis_authenticated req tok uid w Htok Htruthy Hdata Hverify).
    rewrite Hgate. cbn [canProceed negb]. rewrite He. reflexivity.
  - unfold usage_counter. simpl docs. rewrite lookup_insert_eq. simpl.
    rewrite lookup_insert_ne by done. by rewrite lookup_insert_eq.
  - erewrite calls_since_app by reflexivity. reflexivity.
Qed.

End OrchestratorFacts.

(* ===================================================================== *)
(** ** Properties of the payment webhook *)
(* ===================================================================== *)

Section WebhookFacts.
Variable K_SERVICE : option string.
Variable be : backend.

Local Abbreviation handler := (paypalWebhookHandler K_SERVICE be).
Local Abbreviation spath := (status_path K_SERVICE).

(** A delivery that passes the checks of method, event type and user id
    runs the update for its event type and acknowledges with 204, or
    reports 500 when the update throws. *)
Lemma webhook_run (req : webhook_request) (evt : string) (w : world) :
  wh_method req = "POST" →
  event_type (wh_body req) = Some evt →
  truthy_str (Some evt) = true →
  truthy_str (extract_user_id (event_resource (wh_body req))) = true →
  handler req w =
    let resource := event_resource (wh_body req) in
    let ref := spath (extract_user_id resource) in
    let update : M unit :=
      if String.eqb evt "BILLING.SUBSCRIPTION.ACTIVATED"
      then doc_set be ref (activated_payload resource)
      else if String.eqb evt "BILLING.SUBSCRIPTION.CANCELLED"
              || String.eqb evt "BILLING.SUBSCRIPTION.EXPIRED"
      then doc_set be ref (downgrade_payload evt)
      else ret tt in
    match update w with
    | (Returned _, w') => (Returned {| wh_code := 204; wh_text := None |}, w')
    | (Thrown _, w') =>
        (Returned {| wh_code := 500; wh_text := Some "Database Update Failed" |}, w')
    end.
Proof.
  intros Hm Hev Hevt Hid. unfold paypalWebhookHandler.
  rewrite Hm, Hev, Hevt, Hid. cbn [String.eqb Ascii.eqb Bool.eqb negb interp_str].
  cbv zeta. unfold try_catch, mbind, M_bind, bind.
  match goal with |- context [(if ?a then ?b else ?c) w] =>
    destruct ((if a then b else c) w) as [[[]|e] w'] end; reflexivity.
Qed.

(** C6, as the code has it.  A CANCELLED or EXPIRED event merge-writes
    [tier: free], the lower-cased event type as [status]
    ("billing.subscription.cancelled", "billing.subscription.expired") and
    the server's time as [updated_at] to the subject's status document;
    every other field of the document, and every other document, stays. *)
Theorem C6_downgrade_writes_free_and_event_name
    (req : webhook_request) (uid : option string) (evt st : string) (w : world) :
  wh_method req = "POST" →
  event_type (wh_body req) = Some evt →
  (evt = "BILLING.SUBSCRIPTION.CANCELLED" ∧ st = "billing.subscription.cancelled")
  ∨ (evt = "BILLING.SUBSCRIPTION.EXPIRED" ∧ st = "billing.subscription.expired") →
  extract_user_id (event_resource (wh_body req)) = uid →
  truthy_str uid = true →
  set_fails be (spath uid) = false →
  ∃ w' d,
    handler req w = (Returned {| wh_code := 204; wh_text := None |}, w')
    ∧ calls_since w w' =
        [EvSet (spath uid)
           [("tier", FValue (Some (VStr "free")));
            ("status", FValue (Some (VStr st)));
            ("updated_at", FServerTimestamp)] true]
    ∧ docs w' !! spath uid = Some d
    ∧ d !! "tier" = Some (VStr "free")
    ∧ d !! "status" = Some (VStr st)
    ∧ d !! "updated_at" = Some (VTimestamp (server_time be))
    ∧ (∀ f, f ≠ "tier" → f ≠ "status" → f ≠ "updated_at" →
         d !! f = (docs w !! spath uid) ≫= (.!! f))
    ∧ (∀ p, p ≠ spath uid → docs w' !! p = docs w !! p).
Proof.
  intros Hm Hev Hevt Huid Hid Hw. subst uid.
  assert (truthy_str (Some evt) = true) as Hne by (by destruct Hevt as [[-> _]|[-> _]]).
  rewrite (webhook_run req evt w Hm Hev Hne Hid). cbv zeta.
  assert (downgrade_payload evt =
          [("tier", FValue (Some (VStr "free")));
           ("status", FValue (Some (VStr st)));
           ("updated_at", FServerTimestamp)]) as Hpay
    by (by destruct Hevt as [[-> ->]|[-> ->]]).
  assert ((if String.eqb evt "BILLING.SUBSCRIPTION.ACTIVATED"
           then doc_set be (spath (extract_user_id (event_resource (wh_body req))))
                  (activated_payload (event_resource (wh_body req)))
           else if String.eqb evt "BILLING.SUBSCRIPTION.CANCELLED"
                   || String.eqb evt "BILLING.SUBSCRIPTION.EXPIRED"
           then doc_set be (spath (extract_user_id (event_resource (wh_body req))))
                  (downgrade_payload evt)
           else ret tt)
          = doc_set be (spath (extract_user_id (event_resource (wh_body req))))
              (downgrade_payload evt)) as ->
    by (by destruct Hevt as [[-> _]|[-> _]]).
  rewrite Hpay. rewrite doc_set_ok; [|reflexivity|exact Hw].
  do 2 eexists. split; [reflexivity|].
  split; [by apply calls_since_app|].
  split; [simpl docs; apply lookup_insert_eq|]. simpl merge_fields.
  split; [by rewrite !lookup_insert_ne, lookup_insert_eq by done|].
  split; [by rewrite lookup_insert_ne, lookup_insert_eq by done|].
  split; [by rewrite lookup_insert_eq|].
  split.
  - intros f H1 H2 H3. rewrite !lookup_insert_ne by done.
    destruct (docs w !! _); simpl; [done|apply lookup_empty].
  - intros p0 Hp. simpl docs. by rewrite lookup_insert_ne.
Qed.

(** C7. An ACTIVATED event that carries a subject id and a provider
    subscription id merge-writes [tier: pro], [status: active], the
    provider id as [paypal_id] and the server's time as [updated_at] (and
    [expires_at]) to that subject's status document; every other field of
    the document, and every other document, stays, and the subject then
    reads as an active pro. *)
Theorem C7_activation_writes_pro_active
    (req : webhook_request) (uid : option string) (pid : string) (w : world) :
  wh_method req = "POST" →
  event_type (wh_body req) = Some "BILLING.SUBSCRIPTION.ACTIVATED" →
  extract_user_id (event_resource (wh_body req)) = uid →
  truthy_str uid = true →
  event_resource (wh_body req) ≫= res_id = Some pid →
  set_fails be (spath uid) = false →
  ∃ w' d,
    handler req w = (Returned {| wh_code := 204; wh_text := None |}, w')
    ∧ calls_since w w' =
        [EvSet (spath uid)
           [("tier", FValue (Some (VStr "pro")));
            ("status", FValue (Some (VStr "active")));
            ("paypal_id", FValue (Some (VStr pid)));
            ("expires_at", FServerTimestamp);
            ("updated_at", FServerTimestamp)] true]
    ∧ docs w' !! spath uid = Some d
    ∧ d !! "tier" = Some (VStr "pro")
    ∧ d !! "status" = Some (VStr "active")
    ∧ d !! "paypal_id" = Some (VStr pid)
    ∧ d !! "updated_at" = Some (VTimestamp (server_time be))
    ∧ (∀ f, f ≠ "tier" → f ≠ "status" → f ≠ "paypal_id" →
            f ≠ "expires_at" → f ≠ "updated_at" →
         d !! f = (docs w !! spath uid) ≫= (.!! f))
    ∧ (∀ p, p ≠ spath uid → docs w' !! p = docs w !! p)
    ∧ active_pro (subscription_status K_SERVICE w' uid).
Proof.
  intros Hm Hev Huid Hid Hpid Hw. subst uid.
  rewrite (webhook_run req _ w Hm Hev eq_refl Hid). cbv zeta.
  cbn [String.eqb Ascii.eqb Bool.eqb].
  unfold activated_payload. rewrite Hpid. cbn [fmap option_fmap option_map].
  rewrite doc_set_ok; [|reflexivity|exact Hw].
  do 2 eexists. split; [reflexivity|].
  split; [by apply calls_since_app|].
  split; [simpl docs; apply lookup_insert_eq|]. simpl merge_fields.
  split; [by rewrite !lookup_insert_ne, lookup_insert_eq by done|].
  split; [by rewrite !lookup_insert_ne, lookup_insert_eq by done|].
  split; [by rewrite !lookup_insert_ne, lookup_insert_eq by done|].
  split; [by rewrite lookup_insert_eq|].
  split; [|split].
  - intros f H1 H2 H3 H4 H5. rewrite !lookup_insert_ne by done.
    destruct (docs w !! _); simpl; [done|apply lookup_empty].
  - intros p0 Hp. simpl docs. by rewrite lookup_insert_ne.
  - unfold active_pro, subscription_status. simpl docs.
    rewrite lookup_insert_eq. simpl default.
    split; by rewrite !lookup_insert_ne, lookup_insert_eq by done.
Qed.

End WebhookFacts.

(* ===================================================================== *)
(** ** Concrete instances *)
(* ===================================================================== *)

Lemma free_tier_is_not_active_pro (c : Z) :
  ¬ active_pro (subscription_status None (world_free_at c) (Some "u1")).
Proof. intros [H _]. vm_compute in H. discriminate. Defined.

Lemma no_subscription_is_not_active_pro :
  ¬ active_pro (subscription_status None world_without_count (Some "u1")).
Proof. intros [H _]. vm_compute in H. discriminate. Defined.

(** The fourth analysis of a free-tier user. *)
Lemma C1_fourth_analysis :
  fst (checkSubscription sample_lt sample_prim None (reliable 0) (Some "u1")
         (world_free_at 3))
  = Returned {| canProceed := true;
                message := "Free tier usage: 4/5 analyses used." |}.
Proof.
  destruct (C1_free_tier_grants_and_increments sample_lt sample_prim None
              (reliable 0) (Some "u1") (world_free_at 3)
              eq_refl eq_refl eq_refl eq_refl) as [Hgen _].
  destruct (Hgen 3 (free_tier_is_not_active_pro 3) eq_refl) as (w' & Hrun & _).
  - unfold MIN_SAFE_INTEGER. lia.
  - lia.
  - rewrite Hrun. reflexivity.
Defined.

(** An active pro far beyond the free limit. *)
Lemma C2_pro_beyond_limit :
  fst (checkSubscription sample_lt sample_prim None (reliable 0) (Some "u1")
         (world_pro_at 99))
  = Returned {| canProceed := true; message := "Pro subscription active." |}.
Proof.
  destruct (C2_active_pro_passes_without_write sample_lt sample_prim None
              (reliable 0) (Some "u1") (world_pro_at 99) eq_refl eq_refl eq_refl)
    as (w' & Hrun & _).
  - split; vm_compute; reflexivity.
  - rewrite Hrun. reflexivity.
Defined.

(** A free-tier user who has used seven analyses. *)
Lemma C3_seventh_analysis :
  fst (checkSubscription sample_lt sample_prim None (reliable 0) (Some "u1")
         (world_free_at 7))
  = Returned {| canProceed := false;
                message := "Free tier limit of 5 analyses exceeded. Please upgrade to Pro." |}.
Proof.
  destruct (C3_limit_reached_denies_without_write sample_lt sample_prim None
              (reliable 0) (Some "u1") (world_free_at 7) 7 eq_refl eq_refl eq_refl
              (free_tier_is_not_active_pro 7) eq_refl)
    as (w' & Hrun & _).
  - lia.
  - rewrite Hrun. reflexivity.
Defined.

(** The claim of C4 at a free-tier user with [count = 5]: the refusal does
    not mention "5/5". *)
Lemma C4_refusal_does_not_mention_five_of_five :
  ¬ (∃ d w',
       checkSubscription sample_lt sample_prim None (reliable 0) (Some "u1")
         (world_free_at 5) = (Returned d, w')
       ∧ canProceed d = false
       ∧ includes "5/5" (message d) = true).
Proof.
  intros (d & w' & Hrun & _ & Hinc).
  vm_compute in Hrun. injection Hrun as <- _.
  vm_compute in Hinc. discriminate.
Qed.

Lemma C4_at_five :
  fst (checkSubscription sample_lt sample_prim None (reliable 0) (Some "u1")
         (world_free_at 5))
  = Returned {| canProceed := false;
                message := "Free tier limit of 5 analyses exceeded. Please upgrade to Pro." |}.
Proof.
  destruct (C4_refusal_at_five_has_limit_reason sample_lt sample_prim None
              (reliable 0) (Some "u1") (world_free_at 5)
              eq_refl eq_refl eq_refl eq_refl) as [Hfive _].
  destruct (Hfive eq_refl) as (w' & Hrun & _).
  rewrite Hrun. reflexivity.
Defined.

(** A failing read of the usage document. *)
Lemma C5_usage_read_fails :
  let run := checkSubscription sample_lt sample_prim None
               (read_fault_at u1_usage) (Some "u1") (world_free_at 0) in
  existsb raised (calls_since (world_free_at 0) (snd run)) = true
  ∧ fst run = Returned {| canProceed := false;
                          message := "Internal server error during authorization check." |}.
Proof.
  cbv zeta. split; [vm_compute; reflexivity|].
  apply (C5_storage_fault_denies sample_lt sample_prim None
           (read_fault_at u1_usage) (Some "u1") (world_free_at 0)
           (snd (checkSubscription sample_lt sample_prim None
                   (read_fault_at u1_usage) (Some "u1") (world_free_at 0)))).
  - apply surjective_pairing.
  - vm_compute. reflexivity.
Defined.

(** A usage document that holds only [last_use]. *)
Lemma C10_document_without_count :
  fst (checkSubscription sample_lt sample_prim None (reliable 0) (Some "u1")
         world_without_count)
  = Returned {| canProceed := false;
                message := "Free tier limit of 5 analyses exceeded. Please upgrade to Pro." |}.
Proof.
  destruct (C10_missing_count_field_denies sample_lt sample_prim None
              (reliable 0) (Some "u1") world_without_count
              {[ "last_use" := VTimestamp 7 ]} eq_refl eq_refl eq_refl
              no_subscription_is_not_active_pro eq_refl eq_refl)
    as (w' & Hrun & _).
  rewrite Hrun. reflexivity.
Defined.

(** An admitted first analysis whose AI call returns nothing. *)
Lemma C8_empty_answer :
  fst (runAnalysis sample_lt sample_prim None (reliable 0) sample_truthy
         sample_verify (Some "key") (fun a => a) sample_generate sample_parse
         sample_request (world_free_at 0))
  = Returned {| code := 500; sent := BError "Failed to generate AI analysis." |}.
Proof.
  destruct (C8_failed_analysis_keeps_the_increment sample_lt sample_prim None
              (reliable 0) string sample_truthy string sample_verify (Some "key")
              (fun a => a) sample_generate sample_parse
              sample_request "tok1" (Some "u1") (world_free_at 0) 0
              eq_refl eq_refl eq_refl eq_refl eq_refl eq_refl eq_refl eq_refl
              (free_tier_is_not_active_pro 0) eq_refl)
    as (d & w' & _ & _ & Hrun & _).
  - unfold MIN_SAFE_INTEGER. lia.
  - lia.
  - right. right. left. exists None. split; reflexivity.
  - rewrite Hrun. reflexivity.
Defined.

(** The claim of C6 at a CANCELLED event for "u1": the status written is
    not "cancelled". *)
Lemma C6_cancelled_event_does_not_write_cancelled :
  ¬ (∃ w' d,
       paypalWebhookHandler None (reliable 0)
         (sample_event "BILLING.SUBSCRIPTION.CANCELLED") empty_world
       = (Returned {| wh_code := 204; wh_text := None |}, w')
       ∧ docs w' !! u1_status = Some d
       ∧ d !! "tier" = Some (VStr "free")
       ∧ d !! "status" = Some (VStr "cancelled")).
Proof.
  intros (w' & d & Hrun & Hdoc & _ & Hst).
  vm_compute in Hrun. injection Hrun as <-.
  vm_compute in Hdoc. injection Hdoc as <-.
  vm_compute in Hst. discriminate.
Qed.

Lemma C6_expired_event :
  fst (paypalWebhookHandler None (reliable 0)
         (sample_event "BILLING.SUBSCRIPTION.EXPIRED") empty_world)
  = Returned {| wh_code := 204; wh_text := None |}.
Proof.
  destruct (C6_downgrade_writes_free_and_event_name None (reliable 0)
              (sample_event "BILLING.SUBSCRIPTION.EXPIRED") (Some "u1")
              "BILLING.SUBSCRIPTION.EXPIRED" "billing.subscription.expired"
              empty_world eq_refl eq_refl (or_intror (conj eq_refl eq_refl))
              eq_refl eq_refl eq_refl)
    as (w' & d & Hrun & _).
  rewrite Hrun. reflexivity.
Defined.

(** The scenario of the specification: an ACTIVATED event for "u1" with
    provider subscription "P1". *)
Lemma C7_activation_of_u1 :
  ∃ w' d,
    paypalWebhookHandler None (reliable 0)
      (sample_event "BILLING.SUBSCRIPTION.ACTIVATED") empty_world
    = (Returned {| wh_code := 204; wh_text := None |}, w')
    ∧ docs w' !! u1_status = Some d
    ∧ d !! "tier" = Some (VStr "pro")
    ∧ d !! "status" = Some (VStr "active")
    ∧ d !! "paypal_id" = Some (VStr "P1").
Proof.
  destruct (C7_activation_writes_pro_active None (reliable 0)
              (sample_event "BILLING.SUBSCRIPTION.ACTIVATED") (Some "u1") "P1"
              empty_world eq_refl eq_refl eq_refl eq_refl eq_refl eq_refl)
    as (w' & d & Hrun & _ & Hdoc & Htier & Hst & Hpid & _).
  exists w', d. repeat split; assumption.
Defined.

(* ===================================================================== *)
(** ** Further properties of the gate *)
(* ===================================================================== *)

Lemma length_append (a b : string) :
  String.length (a +:+ b) = (String.length a + String.length b)%nat.
Proof. induction a as [|x a IH]; simpl; [done|by rewrite IH]. Qed.

Lemma append_eq_suffix (a b s t : string) :
  String.length s = String.length t → a +:+ s = b +:+ t → s = t.
Proof.
  revert b. induction a as [|c a IH]; intros b Hlen Heq.
  - destruct b as [|c' b]; [exact Heq|].
    exfalso. apply (f_equal String.length) in Heq.
    rewrite !length_append in Heq. simpl in Heq. lia.
  - destruct b as [|c' b].
    + exfalso. apply (f_equal String.length) in Heq.
      rewrite !length_append in Heq. simpl in Heq. lia.
    + injection Heq as _ Heq. by apply (IH b).
Qed.

Lemma append_assoc (a b c : string) : (a +:+ b) +:+ c = a +:+ (b +:+ c).
Proof.
  induction a as [|x a IH]; [reflexivity|].
  change (String x ((a +:+ b) +:+ c) = String x (a +:+ (b +:+ c))).
  by rewrite IH.
Qed.

(** No status document is a usage document. *)
Lemma status_path_not_usage_path (K K' : option string) (u u' : option string) :
  status_path K u ≠ usage_path K' u'.
Proof.
  unfold status_path, usage_path. intros Heq.
  rewrite <- !append_assoc in Heq.
  apply append_eq_suffix in Heq; [discriminate|reflexivity].
Qed.

Section MoreGateFacts.
Variable StringToNumber_lt : string -> Z -> bool.
Variable Timestamp_toPrimitive : Z -> string.
Variable K_SERVICE : option string.
Variable be : backend.

Local Abbreviation gate := (checkSubscription StringToNumber_lt Timestamp_toPrimitive K_SERVICE be).
Local Abbreviation gate_gcf := (checkSubscription_gcf StringToNumber_lt Timestamp_toPrimitive K_SERVICE be).
Local Abbreviation spath := (status_path K_SERVICE).
Local Abbreviation upath := (usage_path K_SERVICE).
Local Abbreviation lt5 v := (lt_num StringToNumber_lt Timestamp_toPrimitive v FREE_TIER_LIMIT).
Local Abbreviation succ v := (add1 Timestamp_toPrimitive v).
Local Abbreviation cnt w uid := (usage_counter K_SERVICE w uid !! "count").

Lemma gate_cases (uid : option string) (w : world) :
  ∃ d w', gate uid w = (Returned d, w')
          ∧ gate_case StringToNumber_lt Timestamp_toPrimitive K_SERVICE be uid w d w'.
Proof.
  destruct (truthy_str uid) eqn:Hid.
  2:{ do 2 eexists. split; [|by apply case_no_id].
      unfold checkSubscription. rewrite Hid. reflexivity. }
  destruct (get_fails be (spath uid)) eqn:Hs.
  { do 2 eexists. split;
      [apply (gate_read_fault _ _ _ _ uid w Hid (or_introl Hs))|].
    unfold reads_done, record. simpl. rewrite <- app_assoc. simpl.
    apply case_read_fault; [done|]. by left. }
  destruct (get_fails be (upath uid)) eqn:Hu.
  { do 2 eexists. split;
      [apply (gate_read_fault _ _ _ _ uid w Hid (or_intror Hu))|].
    unfold reads_done, record. simpl. rewrite <- app_assoc. simpl.
    apply case_read_fault; [done|]. by right. }
  rewrite (gate_run _ _ _ _ uid w Hid Hs Hu). cbv zeta.
  rewrite (reads_done_ok _ _ uid w Hs Hu).
  destruct (is_active_pro _) eqn:Hpro.
  { do 2 eexists. split; [reflexivity|]. by apply case_pro. }
  destruct (lt5 _) eqn:Hlt.
  2:{ do 2 eexists. split; [reflexivity|]. by apply case_limit. }
  destruct (set_fails be (upath uid)) eqn:Hw.
  - unfold doc_set. rewrite Hw, orb_true_r.
    do 2 eexists. split; [reflexivity|].
    unfold record. simpl. rewrite <- app_assoc. by apply case_write_fault.
  - rewrite (doc_set_ok _ _ _ _ (increment_defined _) Hw).
    do 2 eexists. split; [reflexivity|].
    unfold record. simpl. rewrite <- app_assoc. by apply case_free.
Qed.


Lemma gate_case_keeps_status uid w d w' :
  gate_case StringToNumber_lt Timestamp_toPrimitive K_SERVICE be uid w d w' →
  subscription_status K_SERVICE w' uid = subscription_status K_SERVICE w uid.
Proof.
  intros Hcase. unfold subscription_status.
  destruct Hcase; simpl docs; try reflexivity.
  rewrite lookup_insert_ne; [reflexivity|].
  intros Heq. symmetry in Heq. by apply status_path_not_usage_path in Heq.
Qed.


(** X2. An evaluation touches the subject's own two documents only: every
    store call is on the subject's status path or usage path, every write
    is on the usage path, and every document other than the subject's
    usage document is left as it was.  The status document is only read. *)
Theorem X2_gate_touches_only_the_subject (uid : option string) (w : world) :
  ∃ d w',
    gate uid w = (Returned d, w')
    ∧ (∀ e, e ∈ calls_since w w' →
         event_path e = spath uid ∨ event_path e = upath uid)
    ∧ (∀ e, e ∈ writes (calls_since w w') → event_path e = upath uid)
    ∧ (∀ p, p ≠ upath uid → docs w' !! p = docs w !! p)
    ∧ docs w' !! spath uid = docs w !! spath uid.
Proof.
  destruct (gate_cases uid w) as (d & w' & Hrun & Hcase).
  exists d, w'. split; [exact Hrun|].
  assert (spath uid ≠ upath uid) as Hne by apply status_path_not_usage_path.
  destruct Hcase;
    [rewrite !calls_since_refl
    |erewrite !calls_since_app by reflexivity..];
    simpl docs; simpl writes.
  all: split; [|split; [|split]].
  all: try (intros e He; unfold two_reads in He; apply list_elem_of_In in He;
            simpl in He; intuition (subst; simpl; auto)).
  all: try (intros p0 Hp).
  all: try rewrite lookup_insert_ne by done.
  all: reflexivity.
Qed.

(** X3. What a decision costs.  A refusal leaves every document as it was;
    so does the admission of an active pro.  The admission of any other
    subject comes with exactly one successful write, to the subject's usage
    document. *)
Theorem X3_only_free_admissions_write (uid : option string) (w : world) :
  ∃ d w',
    gate uid w = (Returned d, w')
    ∧ (canProceed d = false → docs w' = docs w)
    ∧ (canProceed d = true →
       active_pro (subscription_status K_SERVICE w uid) →
       docs w' = docs w ∧ writes (calls_since w w') = [])
    ∧ (canProceed d = true →
       ¬ active_pro (subscription_status K_SERVICE w uid) →
       writes (calls_since w w')
       = [EvSet (upath uid) (increment_payload (succ (cnt w uid))) true]).
Proof.
  destruct (gate_cases uid w) as (d & w' & Hrun & Hcase).
  exists d, w'. split; [exact Hrun|].
  destruct Hcase as [Hid|Hid Hf|Hid Hpro|Hid Hpro Hlt|Hid Hpro Hlt|Hid Hpro Hlt];
    [rewrite !calls_since_refl
    |erewrite !calls_since_app by reflexivity..];
    cbn [canProceed docs].
  all: split; [intros Hd|split; [intros Hd Hp|intros Hd Hn]].
  all: try discriminate Hd; try reflexivity.
  all: try (split; reflexivity).
  all: try (apply is_active_pro_true in Hp; congruence).
  exfalso. by apply Hn, is_active_pro_true.
Qed.

(** X4. One evaluation moves a numeric count by at most one, and never
    down: the count stays, or goes from [c] to [c + 1], and the latter only
    when [c] was below 5 and the request was admitted.  A count of at most
    5 stays at most 5. *)
Theorem X4_count_steps_by_at_most_one
    (uid : option string) (w : world) (c : Z) :
  count_is K_SERVICE w uid c →
  MIN_SAFE_INTEGER ≤ c →
  ∃ d w' c',
    gate uid w = (Returned d, w')
    ∧ count_is K_SERVICE w' uid c'
    ∧ c ≤ c' ≤ c + 1
    ∧ (c' = c + 1 → c < 5 ∧ canProceed d = true)
    ∧ (c ≤ 5 → c' ≤ 5).
Proof.
  intros Hc Hsafe. unfold count_is in *.
  destruct (gate_cases uid w) as (d & w' & Hrun & Hcase).
  destruct Hcase as [Hid|Hid Hf|Hid Hpro|Hid Hpro Hlt|Hid Hpro Hlt|Hid Hpro Hlt].
  4:{ rewrite Hc in Hrun, Hlt. simpl in Hlt. apply Z.ltb_lt in Hlt.
      unfold FREE_TIER_LIMIT in Hlt.
      eexists _, _, (c + 1). split; [exact Hrun|].
      split; [|repeat split; lia].
      unfold usage_counter. simpl docs. rewrite lookup_insert_eq. simpl.
      rewrite lookup_insert_ne by done. by rewrite lookup_insert_eq. }
  all: eexists _, _, c; (split; [exact Hrun|]);
    (split; [exact Hc|]); repeat split; lia.
Qed.

(** X5. Evaluations one after the other, for a subject that is not an
    active pro, on a store without faults: starting from count [c], the
    evaluation number [i] (from 0) is admitted exactly when [c + i < 5],
    and after [n] evaluations the count is [c + n] capped at 5 (a count
    that started above 5 stays).  A fresh subject gets five analyses. *)
Theorem X5_sequential_evaluations_stop_at_the_limit
    (n : nat) (uid : option string) (w : world) (c : Z) :
  truthy_str uid = true →
  get_fails be (spath uid) = false →
  get_fails be (upath uid) = false →
  set_fails be (upath uid) = false →
  ¬ active_pro (subscription_status K_SERVICE w uid) →
  count_is K_SERVICE w uid c →
  MIN_SAFE_INTEGER ≤ c →
  ∃ ds w',
    evaluate_n StringToNumber_lt Timestamp_toPrimitive K_SERVICE be n uid w
      = (Returned ds, w')
    ∧ length ds = n
    ∧ (∀ (i : nat) d, ds !! i = Some d →
         canProceed d = bool_decide (c + Z.of_nat i < 5))
    ∧ count_is K_SERVICE w' uid (Z.max c (Z.min (c + Z.of_nat n) 5)).
Proof.
  intros Hid Hs Hu Hw. revert w c.
  induction n as [|n IH]; intros w c Hpro Hc Hsafe.
  - exists [], w. split; [reflexivity|]. split; [reflexivity|].
    split; [intros i d Hi; by rewrite lookup_nil in Hi|].
    replace (Z.max c (Z.min (c + Z.of_nat 0) 5)) with c by lia. exact Hc.
  - cbn [evaluate_n]. unfold mbind, M_bind, bind at 1.
    pose proof (is_active_pro_false _ Hpro) as Hprob.
    unfold count_is in Hc.
    destruct (Z.ltb c 5) eqn:Hlt.
    + apply Z.ltb_lt in Hlt.
      pose proof (gate_free_grant StringToNumber_lt Timestamp_toPrimitive K_SERVICE be uid w Hid Hs Hu Hw Hprob) as Hrun.
      rewrite Hc in Hrun. cbv zeta in Hrun. simpl in Hrun.
      assert ((c <? FREE_TIER_LIMIT) = true) as Hb
        by (apply Z.ltb_lt; unfold FREE_TIER_LIMIT; lia).
      specialize (Hrun Hb). rewrite Hrun.
      match goal with |- context [bind _ _ ?w1] => set (w1' := w1) end.
      destruct (IH w1' (c + 1)) as (ds & w' & Hrest & Hlen & Hdec & Hcnt).
      * unfold subscription_status, w1'. simpl docs.
        rewrite lookup_insert_ne; [exact Hpro|].
        intros Heq. symmetry in Heq. by apply status_path_not_usage_path in Heq.
      * unfold count_is, usage_counter, w1'. simpl docs.
        rewrite lookup_insert_eq. simpl.
        rewrite lookup_insert_ne by done. by rewrite lookup_insert_eq.
      * lia.
      * unfold bind. rewrite Hrest. eexists _, w'. split; [reflexivity|].
        split; [simpl; by rewrite Hlen|]. split.
        -- intros [|i] d Hi; simpl in Hi.
           ++ injection Hi as <-. simpl. symmetry. apply bool_decide_eq_true. lia.
           ++ rewrite (Hdec i d Hi). apply bool_decide_ext. lia.
        -- replace (Z.max c (Z.min (c + Z.of_nat (S n)) 5))
             with (Z.max (c + 1) (Z.min (c + 1 + Z.of_nat n) 5)) by lia.
           exact Hcnt.
    + apply Z.ltb_ge in Hlt.
      assert (lt5 (cnt w uid) = false) as Hb
        by (rewrite Hc; simpl; apply Z.ltb_ge; unfold FREE_TIER_LIMIT; lia).
      rewrite (gate_limit_deny StringToNumber_lt Timestamp_toPrimitive K_SERVICE be uid w Hid Hs Hu Hprob Hb).
      match goal with |- context [bind _ _ ?w1] => set (w1' := w1) end.
      destruct (IH w1' c) as (ds & w' & Hrest & Hlen & Hdec & Hcnt);
        [exact Hpro|exact Hc|exact Hsafe|].
      unfold bind. rewrite Hrest. eexists _, w'. split; [reflexivity|].
      split; [simpl; by rewrite Hlen|]. split.
      * intros [|i] d Hi; simpl in Hi.
        -- injection Hi as <-. simpl. symmetry. apply bool_decide_eq_false. lia.
        -- rewrite (Hdec i d Hi).
           rewrite !bool_decide_eq_false_2 by lia. reflexivity.
      * replace (Z.max c (Z.min (c + Z.of_nat (S n)) 5))
          with (Z.max c (Z.min (c + Z.of_nat n) 5)) by lia.
        exact Hcnt.
Qed.


(** An evaluation is its two reads followed by the rest of the function. *)
Lemma gate_is_reads_then_resume (uid : option string) (w : world) :
  truthy_str uid = true →
  gate uid w
  = (settled ← settle (gate_reads K_SERVICE be uid);
     resume_gate StringToNumber_lt Timestamp_toPrimitive K_SERVICE be uid settled) w.
Proof.
  intros Hid. unfold checkSubscription. rewrite Hid. cbn [negb].
  unfold resume_gate, gate_reads, try_catch, mbind, M_bind, bind, settle, lift.
  destruct (Promise_all2 _ _ w) as [[[ss us]|e] w1]; reflexivity.
Qed.

(** X6. Two overlapping evaluations lose an increment.  An evaluation is
    its two reads followed by the rest of the function; when two
    evaluations for one subject (not an active pro, count [c < 5], no
    fault) both have their reads answered before either goes on, both are
    admitted with the same reason "Free tier usage: {c+1}/5 analyses
    used.", both write [count = c + 1], and the count ends at [c + 1]. *)
Theorem X6_overlapping_evaluations_lose_an_increment
    (uid : option string) (w : world) (c : Z) :
  truthy_str uid = true →
  get_fails be (spath uid) = false →
  get_fails be (upath uid) = false →
  set_fails be (upath uid) = false →
  ¬ active_pro (subscription_status K_SERVICE w uid) →
  count_is K_SERVICE w uid c →
  MIN_SAFE_INTEGER ≤ c → c < 5 →
  gate uid w
  = (settled ← settle (gate_reads K_SERVICE be uid);
     resume_gate StringToNumber_lt Timestamp_toPrimitive K_SERVICE be uid settled) w
  ∧ ∃ w',
      racing_pair StringToNumber_lt Timestamp_toPrimitive K_SERVICE be uid w
      = (Returned
           ({| canProceed := true;
               message := "Free tier usage: " +:+ pretty (c + 1)
                            +:+ "/5 analyses used." |},
            {| canProceed := true;
               message := "Free tier usage: " +:+ pretty (c + 1)
                            +:+ "/5 analyses used." |}), w')
      ∧ writes (calls_since w w')
        = [EvSet (upath uid)
             [("count", FValue (Some (VNumber (Num (c + 1)))));
              ("last_use", FServerTimestamp)] true;
           EvSet (upath uid)
             [("count", FValue (Some (VNumber (Num (c + 1)))));
              ("last_use", FServerTimestamp)] true]
      ∧ count_is K_SERVICE w' uid (c + 1).
Proof.
  intros Hid Hs Hu Hw Hpro Hc Hsafe Hlt.
  split; [by apply gate_is_reads_then_resume|].
  apply is_active_pro_false in Hpro.
  unfold is_active_pro, subscription_status in Hpro.
  unfold count_is, usage_counter in Hc.
  assert ((c <? FREE_TIER_LIMIT) = true) as Hb
    by (apply Z.ltb_lt; unfold FREE_TIER_LIMIT; lia).
  unfold racing_pair, gate_reads, mbind, M_bind, bind at 1, settle.
  rewrite (reads_ok be _ _ w Hs Hu).
  unfold bind at 1. rewrite (reads_ok be _ _ _ Hs Hu). cbn [record docs].
  unfold resume_gate, try_catch, mbind, M_bind, lift, bind.
  rewrite Hpro, Hc. cbn [lt_num add1]. rewrite Hb.
  eexists. split; [|split].
  - rewrite doc_set_ok; [|reflexivity|exact Hw]. unfold ret at 1.
    rewrite doc_set_ok; [|reflexivity|exact Hw].
    unfold ret, free_message. rewrite pretty_limit.
    cbn [interp_prim string_of_number]. reflexivity.
  - erewrite calls_since_app;
      [|unfold record; cbn [log]; rewrite <- !app_assoc; reflexivity].
    reflexivity.
  - unfold count_is, usage_counter, record. cbn [docs].
    rewrite lookup_insert_eq. simpl.
    rewrite lookup_insert_ne by done. by rewrite lookup_insert_eq.
Qed.

(** X7. A count stored as a string is not counted up: when the string
    compares below 5, the subject is admitted, ["1"] is appended to the
    string, and the result is stored as the count and shown in the
    reason. *)
Theorem X7_string_count_is_concatenated
    (uid : option string) (w : world) (s : string) :
  truthy_str uid = true →
  get_fails be (spath uid) = false →
  get_fails be (upath uid) = false →
  set_fails be (upath uid) = false →
  ¬ active_pro (subscription_status K_SERVICE w uid) →
  cnt w uid = Some (VStr s) →
  StringToNumber_lt s 5 = true →
  ∃ w',
    gate uid w =
      (Returned {| canProceed := true;
                   message := "Free tier usage: " +:+ (s +:+ "1")
                                +:+ "/5 analyses used." |}, w')
    ∧ cnt w' uid = Some (VStr (s +:+ "1")).
Proof.
  intros Hid Hs Hu Hw Hpro Hc Hlt.
  pose proof (gate_free_grant StringToNumber_lt Timestamp_toPrimitive K_SERVICE
                be uid w Hid Hs Hu Hw (is_active_pro_false _ Hpro)) as Hrun.
  rewrite Hc in Hrun. cbv zeta in Hrun. cbn [lt_num add1] in Hrun.
  specialize (Hrun Hlt). eexists. split.
  - rewrite Hrun. unfold free_message. rewrite pretty_limit. reflexivity.
  - unfold usage_counter. simpl docs. rewrite lookup_insert_eq. simpl.
    rewrite lookup_insert_ne by done. by rewrite lookup_insert_eq.
Qed.

(** X8. A count stored as [null] counts as 0: the subject is admitted with
    reason "Free tier usage: 1/5 analyses used." and the count becomes the
    number 1. *)
Theorem X8_null_count_counts_as_zero (uid : option string) (w : world) :
  truthy_str uid = true →
  get_fails be (spath uid) = false →
  get_fails be (upath uid) = false →
  set_fails be (upath uid) = false →
  ¬ active_pro (subscription_status K_SERVICE w uid) →
  cnt w uid = Some VNull →
  ∃ w',
    gate uid w =
      (Returned {| canProceed := true;
                   message := "Free tier usage: 1/5 analyses used." |}, w')
    ∧ count_is K_SERVICE w' uid 1.
Proof.
  intros Hid Hs Hu Hw Hpro Hc.
  pose proof (gate_free_grant StringToNumber_lt Timestamp_toPrimitive K_SERVICE
                be uid w Hid Hs Hu Hw (is_active_pro_false _ Hpro)) as Hrun.
  rewrite Hc in Hrun. cbv zeta in Hrun. cbn [lt_num add1] in Hrun.
  specialize (Hrun eq_refl). eexists. split.
  - rewrite Hrun. reflexivity.
  - unfold count_is, usage_counter. simpl docs. rewrite lookup_insert_eq. simpl.
    rewrite lookup_insert_ne by done. by rewrite lookup_insert_eq.
Qed.

(** X9. On every subject id that is neither absent nor empty the two
    copies of the gate are the same function of the store: same decision,
    same calls, same documents, under every pattern of faults. *)
Theorem X9_gate_copies_agree_on_present_ids (uid : option string) (w : world) :
  truthy_str uid = true →
  gate_gcf uid w = gate uid w.
Proof.
  intros Hid. by apply checkSubscription_copies_agree.
Qed.

End MoreGateFacts.

(* ===================================================================== *)
(** ** Further properties of the AI call and of the request handlers *)
(* ===================================================================== *)

Lemma substring_all (t : string) : String.substring 0 (String.length t) t = t.
Proof. induction t as [|c t IH]; simpl; [done|by rewrite IH]. Qed.

Lemma take_to_absent (sep t : string) :
  includes sep t = false → take_to sep t = t.
Proof.
  induction t as [|c t IH].
  - by destruct sep.
  - change (includes sep (String c t))
      with (if String.prefix sep (String c t) then true else includes sep t).
    change (take_to sep (String c t))
      with (if String.prefix sep (String c t) then EmptyString
            else String c (take_to sep t)).
    destruct (String.prefix sep (String c t)); [discriminate|].
    intros H. by rewrite IH.
Qed.

Lemma drop_to_absent (sep t : string) :
  includes sep t = false → drop_to sep t = None.
Proof.
  induction t as [|c t IH].
  - by destruct sep.
  - change (includes sep (String c t))
      with (if String.prefix sep (String c t) then true else includes sep t).
    change (drop_to sep (String c t))
      with (if String.prefix sep (String c t)
            then Some (String.substring (String.length sep)
                         (String.length (String c t) - String.length sep)%nat
                         (String c t))
            else drop_to sep t).
    destruct (String.prefix sep (String c t)); [discriminate|]. exact IH.
Qed.

Lemma prefix_append (sep t : string) : String.prefix sep (sep +:+ t) = true.
Proof.
  induction sep as [|c sep IH]; [by destruct t|].
  change (String c sep +:+ t) with (String c (sep +:+ t)).
  simpl. destruct (ascii_dec c c); [exact IH|done].
Qed.

Lemma substring_append (sep t : string) :
  String.substring (String.length sep)
    (String.length (sep +:+ t) - String.length sep)%nat (sep +:+ t) = t.
Proof.
  rewrite length_append.
  replace (String.length sep + String.length t - String.length sep)%nat
    with (String.length t) by lia.
  induction sep as [|c sep IH]; [apply substring_all|exact IH].
Qed.

Lemma drop_to_unfold (sep s : string) :
  drop_to sep s
  = if String.prefix sep s
    then Some (String.substring (String.length sep)
                 (String.length s - String.length sep)%nat s)
    else match s with
         | EmptyString => None
         | String _ s' => drop_to sep s'
         end.
Proof. by destruct s. Qed.

(** Splitting [sep ++ t] at [sep] gives back [t], when [t] itself holds no
    [sep]. *)
Lemma split_at1_append (sep t : string) :
  includes sep t = false → split_at1 sep (sep +:+ t) = Some t.
Proof.
  intros H. unfold split_at1.
  rewrite drop_to_unfold, prefix_append, substring_append. simpl.
  by rewrite take_to_absent.
Qed.

Section MoreOrchestratorFacts.
Variable StringToNumber_lt : string -> Z -> bool.
Variable Timestamp_toPrimitive : Z -> string.
Variable K_SERVICE : option string.
Variable be : backend.
Variable analysis : Type.
Variable analysis_truthy : analysis -> bool.
Variable ai_result : Type.
Variable verifyIdToken : string -> outcome (option string).
Variable GEMINI_API_KEY : option string.
Variable prompt_of : analysis -> string.
Variable generateContent : string -> outcome (option string).
Variable JSON_parse : string -> outcome ai_result.

Local Abbreviation gate := (checkSubscription StringToNumber_lt Timestamp_toPrimitive K_SERVICE be).
Local Abbreviation gate_gcf := (checkSubscription_gcf StringToNumber_lt Timestamp_toPrimitive K_SERVICE be).
Local Abbreviation oracle := (runGeminiAnalysis GEMINI_API_KEY prompt_of generateContent JSON_parse).
Local Abbreviation oracle_gcf := (runGeminiAnalysis_gcf prompt_of generateContent JSON_parse).
Local Abbreviation handler :=
  (runAnalysis StringToNumber_lt Timestamp_toPrimitive K_SERVICE be
     analysis_truthy verifyIdToken GEMINI_API_KEY prompt_of generateContent JSON_parse).
Local Abbreviation handler_gcf :=
  (runAnalysis_function StringToNumber_lt Timestamp_toPrimitive K_SERVICE be
     analysis_truthy verifyIdToken prompt_of generateContent JSON_parse).

(** X10. The AI call never touches the store, and it returns a result
    exactly when the key is set, the model answered with a non-empty text
    and that text parses; the result is then the parse of the text. *)
Theorem X10_analysis_result_is_the_parsed_answer (a : analysis) (w : world) :
  snd (oracle a w) = w
  ∧ ∀ r : ai_result,
      fst (oracle a w) = Returned r
      ↔ ∃ t, truthy_str GEMINI_API_KEY = true
             ∧ generateContent (prompt_of a) = Returned (Some t)
             ∧ truthy_str (Some t) = true
             ∧ JSON_parse t = Returned r.
Proof.
  unfold runGeminiAnalysis, try_catch, mbind, M_bind, bind, lift, throw.
  destruct (truthy_str GEMINI_API_KEY) eqn:Hkey; cbn [negb].
  2:{ split; [reflexivity|]. intros r. split; [discriminate|].
      intros (t & Hk & _). discriminate. }
  destruct (generateContent (prompt_of a)) as [[t|]|e] eqn:Hgen.
  - destruct (truthy_str (Some t)) eqn:Ht; cbn [negb interp_str].
    + destruct (JSON_parse t) as [r0|e] eqn:Hp.
      * split; [reflexivity|]. intros r. cbn [fst]. split.
        -- intros [= <-]. exists t. by rewrite Ht.
        -- intros (t' & _ & [= <-] & _ & Hp'). congruence.
      * split; [reflexivity|]. intros r. cbn [fst]. split; [discriminate|].
        intros (t' & _ & [= <-] & _ & Hp'). congruence.
    + split; [reflexivity|]. intros r. cbn [fst]. split; [discriminate|].
      intros (t' & _ & [= <-] & Ht' & _). congruence.
  - split; [reflexivity|]. intros r. cbn. split; [discriminate|].
    intros (t' & _ & [=] & _).
  - split; [reflexivity|]. intros r. cbn. split; [discriminate|].
    intros (t' & _ & [=] & _).
Qed.

(** X11. The AI call hides the cause of a failure: whatever went wrong
    after the key check (transport, empty answer, bad JSON), the error
    thrown is "Could not process analysis via AI. Check API key and model
    output."; without a key it is "API Key is missing. Cannot perform AI
    analysis.". *)
Theorem X11_analysis_errors_are_masked (a : analysis) (w : world) :
  (∃ r, oracle a w = (Returned r, w))
  ∨ (truthy_str GEMINI_API_KEY = false
     ∧ oracle a w
       = (Thrown (Error "API Key is missing. Cannot perform AI analysis."), w))
  ∨ (truthy_str GEMINI_API_KEY = true
     ∧ oracle a w
       = (Thrown (Error "Could not process analysis via AI. Check API key and model output."), w)).
Proof.
  unfold runGeminiAnalysis, try_catch, mbind, M_bind, bind, lift, throw.
  destruct (truthy_str GEMINI_API_KEY) eqn:Hkey; cbn [negb]; [|by right; left].
  destruct (generateContent (prompt_of a)) as [t|e]; [|by right; right].
  destruct (truthy_str t); cbn [negb]; [|by right; right].
  destruct (JSON_parse (interp_str t)) as [r|e]; [left; by exists r|by right; right].
Qed.


Lemma oracle_keeps_world (a : analysis) (w : world) : snd (oracle a w) = w.
Proof.
  unfold runGeminiAnalysis, try_catch, mbind, M_bind, bind, lift, throw.
  destruct (truthy_str GEMINI_API_KEY); cbn [negb]; [|reflexivity].
  destruct (generateContent (prompt_of a)) as [t|e]; [|reflexivity].
  destruct (truthy_str t); cbn [negb]; [|reflexivity].
  destruct (JSON_parse (interp_str t)); reflexivity.
Qed.

Lemma runAnalysis_incomplete (req : request analysis) (w : world) :
  truthy_str (bearer_token req) = false ∨ analysis_truthy (data req) = false →
  handler req w
  = (Returned {| code := 400;
                 sent := BError "Missing authorization token or analysis data." |}, w).
Proof.
  intros H. unfold runAnalysis.
  destruct H as [-> | ->]; [reflexivity|].
  by rewrite orb_true_r.
Qed.

Lemma runAnalysis_unverified (req : request analysis) (w : world) :
  truthy_str (bearer_token req) = true →
  analysis_truthy (data req) = true →
  (∃ e, verifyIdToken (interp_str (bearer_token req)) = Thrown e) →
  handler req w
  = (Returned {| code := 401;
                 sent := BError "Unauthorized: Invalid authentication token." |}, w).
Proof.
  intros Ht Hd [e He]. unfold runAnalysis. rewrite Ht, Hd. cbn [negb orb].
  unfold try_catch, mbind, M_bind, bind, lift. rewrite He. reflexivity.
Qed.

(** X13. Requests that never reach the gate.  Without a bearer token or
    without a payload the handler answers 400; with both but a token that
    does not verify it answers 401; in both cases no store call is made. *)
Theorem X13_requests_rejected_before_the_gate
    (req : request analysis) (w : world) :
  (truthy_str (bearer_token req) = false ∨ analysis_truthy (data req) = false →
   handler req w
   = (Returned {| code := 400;
                  sent := BError "Missing authorization token or analysis data." |}, w))
  ∧ (truthy_str (bearer_token req) = true →
     analysis_truthy (data req) = true →
     (∃ e, verifyIdToken (interp_str (bearer_token req)) = Thrown e) →
     handler req w
     = (Returned {| code := 401;
                    sent := BError "Unauthorized: Invalid authentication token." |}, w)).
Proof.
  split; [apply runAnalysis_incomplete|apply runAnalysis_unverified].
Qed.

Lemma runAnalysis_authenticated' (req : request analysis)
    (uid : option string) (w : world) :
  truthy_str (bearer_token req) = true →
  analysis_truthy (data req) = true →
  verifyIdToken (interp_str (bearer_token req)) = Returned uid →
  handler req w =
    match gate uid w with
    | (Returned authCheck, w1) =>
        if negb (canProceed authCheck)
        then (Returned {| code := 403; sent := BError (message authCheck) |}, w1)
        else match oracle (data req) w1 with
             | (Returned aiResult, w2) =>
                 (Returned {| code := 200;
                              sent := BSuccess (message authCheck) aiResult |}, w2)
             | (Thrown _, w2) =>
                 (Returned {| code := 500;
                              sent := BError "Failed to generate AI analysis." |}, w2)
             end
    | (Thrown e, w1) => (Thrown e, w1)
    end.
Proof.
  intros Htok Hdata Hverify.
  destruct (bearer_token req) as [tok|] eqn:Hb; [|discriminate].
  by apply (runAnalysis_authenticated _ _ _ _ _ _ _ _ _ _ _ _ req tok).
Qed.




(** X16. Reading the bearer token.  A request without an [Authorization]
    header, or whose header does not contain "Bearer ", has no token (and
    is answered 400); from the header "Bearer " followed by a token that
    itself holds no "Bearer ", the token is read back unchanged. *)
Theorem X16_bearer_token_is_read_back (req : request analysis) (w : world) :
  ((authorization req = None
    ∨ ∃ h, authorization req = Some h ∧ includes "Bearer " h = false) →
   bearer_token req = None
   ∧ handler req w
     = (Returned {| code := 400;
                    sent := BError "Missing authorization token or analysis data." |}, w))
  ∧ (∀ t, authorization req = Some ("Bearer " +:+ t) →
          includes "Bearer " t = false →
          bearer_token req = Some t).
Proof.
  split.
  - intros H.
    assert (bearer_token req = None) as Hb.
    { unfold bearer_token. destruct H as [-> | (h & -> & Hh)]; [reflexivity|].
      destruct (truthy_str (Some h)); [|reflexivity].
      unfold split_at1. cbn [interp_str]. by rewrite drop_to_absent. }
    split; [exact Hb|]. apply runAnalysis_incomplete. left. by rewrite Hb.
  - intros t Ha Ht. unfold bearer_token. rewrite Ha.
    change ("Bearer " +:+ t)
      with (String "B" ("earer " +:+ t)) at 1.
    cbn [truthy_str interp_str]. by apply split_at1_append.
Qed.

End MoreOrchestratorFacts.

(* ===================================================================== *)
(** ** Further properties of the payment webhook *)
(* ===================================================================== *)

Lemma lookup_merge_fields (now : Z) (p : payload) (d : gmap string value)
    (k : string) :
  merge_fields now p d !! k
  = match written now p k with
    | Some v => Some v
    | None => d !! k
    end.
Proof.
  revert d. induction p as [|[k' fw] p IH]; intros d; [reflexivity|].
  cbn [merge_fields written]. rewrite IH.
  destruct (written now p k); [reflexivity|].
  destruct (String.eqb_spec k' k) as [->|Hne].
  - destruct (resolve now fw); [apply lookup_insert_eq|reflexivity].
  - destruct (resolve now fw); [by apply lookup_insert_ne|reflexivity].
Qed.

(** Writing the same data twice is writing it once. *)
Lemma merge_fields_twice (now : Z) (p : payload) (d : gmap string value) :
  merge_fields now p (merge_fields now p d) = merge_fields now p d.
Proof.
  apply map_eq. intros k. rewrite !lookup_merge_fields.
  by destruct (written now p k).
Qed.

Section MoreWebhookFacts.
Variable K_SERVICE : option string.
Variable be : backend.

Local Abbreviation handler := (paypalWebhookHandler K_SERVICE be).
Local Abbreviation spath := (status_path K_SERVICE).
Local Abbreviation subject req := (extract_user_id (event_resource (wh_body req))).

Lemma webhook_not_post (req : webhook_request) (w : world) :
  wh_method req ≠ "POST" →
  handler req w
  = (Returned {| wh_code := 405; wh_text := Some "Method Not Allowed" |}, w).
Proof.
  intros Hm. unfold paypalWebhookHandler.
  apply String.eqb_neq in Hm. rewrite Hm. reflexivity.
Qed.

Lemma webhook_no_event_type (req : webhook_request) (w : world) :
  wh_method req = "POST" →
  truthy_str (event_type (wh_body req)) = false →
  handler req w
  = (Returned {| wh_code := 400; wh_text := Some "Invalid webhook structure" |}, w).
Proof.
  intros Hm He. unfold paypalWebhookHandler. rewrite Hm, He. reflexivity.
Qed.

Lemma webhook_no_subject (req : webhook_request) (w : world) :
  wh_method req = "POST" →
  truthy_str (event_type (wh_body req)) = true →
  truthy_str (subject req) = false →
  handler req w
  = (Returned {| wh_code := 400; wh_text := Some "Missing user ID in payload" |}, w).
Proof.
  intros Hm He Hu. unfold paypalWebhookHandler. rewrite Hm, He, Hu. reflexivity.
Qed.

(** A delivery that passes the three checks. *)
Lemma webhook_processed (req : webhook_request) (w : world) :
  wh_method req = "POST" →
  truthy_str (event_type (wh_body req)) = true →
  truthy_str (subject req) = true →
  handler req w =
    match webhook_payload (interp_str (event_type (wh_body req)))
            (event_resource (wh_body req)) with
    | None => (Returned {| wh_code := 204; wh_text := None |}, w)
    | Some pl =>
        if has_undefined pl || set_fails be (spath (subject req))
        then (Returned {| wh_code := 500; wh_text := Some "Database Update Failed" |},
              {| docs := docs w;
                 log := log w ++ [EvSet (spath (subject req)) pl false] |})
        else (Returned {| wh_code := 204; wh_text := None |},
              {| docs := <[spath (subject req) :=
                             merge_fields (server_time be) pl
                               (default ∅ (docs w !! spath (subject req)))]> (docs w);
                 log := log w ++ [EvSet (spath (subject req)) pl true] |})
    end.
Proof.
  intros Hm He Hu.
  destruct (event_type (wh_body req)) as [evt|] eqn:Hevt; [|discriminate].
  rewrite (webhook_run K_SERVICE be req evt w Hm Hevt He Hu). cbv zeta.
  unfold webhook_payload. cbn [interp_str].
  destruct (String.eqb evt "BILLING.SUBSCRIPTION.ACTIVATED").
  { unfold doc_set. destruct (_ || _); reflexivity. }
  destruct (_ || _); [|reflexivity].
  unfold doc_set. destruct (_ || _); reflexivity.
Qed.



(** X18. The webhook never reads and writes at most once, and only the
    status document of the subject named in the event: every other
    document stays as it was, and no usage counter, of any subject under
    any application id, is ever changed by a webhook. *)
Theorem X18_webhook_touches_one_status_document
    (req : webhook_request) (w : world) :
  ∃ resp w',
    handler req w = (Returned resp, w')
    ∧ (length (calls_since w w') ≤ 1)%nat
    ∧ (∀ e, e ∈ calls_since w w' →
         is_set e = true ∧ event_path e = spath (subject req))
    ∧ (∀ p, p ≠ spath (subject req) → docs w' !! p = docs w !! p)
    ∧ (∀ K' u, docs w' !! usage_path K' u = docs w !! usage_path K' u).
Proof.
  assert (∀ resp : webhook_response,
            ∃ resp' w', (Returned resp, w) = (Returned resp', w')
            ∧ (length (calls_since w w') ≤ 1)%nat
            ∧ (∀ e, e ∈ calls_since w w' →
                 is_set e = true ∧ event_path e = spath (subject req))
            ∧ (∀ p, p ≠ spath (subject req) → docs w' !! p = docs w !! p)
            ∧ (∀ K' u, docs w' !! usage_path K' u = docs w !! usage_path K' u))
    as Hsame.
  { intros resp. exists resp, w. split; [reflexivity|].
    rewrite calls_since_refl. repeat split; try done; simpl; try lia; set_solver. }
  destruct (String.eqb_spec (wh_method req) "POST") as [Hm|Hm];
    [|rewrite (webhook_not_post req w Hm); apply Hsame].
  destruct (truthy_str (event_type (wh_body req))) eqn:He;
    [|rewrite (webhook_no_event_type req w Hm He); apply Hsame].
  destruct (truthy_str (subject req)) eqn:Hu;
    [|rewrite (webhook_no_subject req w Hm He Hu); apply Hsame].
  rewrite (webhook_processed req w Hm He Hu).
  destruct (webhook_payload _ _) as [pl|]; [|apply Hsame].
  destruct (_ || _).
  - do 2 eexists. split; [reflexivity|].
    erewrite calls_since_app by reflexivity. cbn [docs].
    repeat split; try done; simpl; try lia.
    all: apply list_elem_of_In in H; simpl in H; destruct H as [<-|[]]; done.
  - do 2 eexists. split; [reflexivity|].
    erewrite calls_since_app by reflexivity. cbn [docs].
    split; [simpl; lia|]. split; [|split].
    + intros e H. apply list_elem_of_In in H. simpl in H.
      destruct H as [<-|[]]. done.
    + intros p0 Hp. by rewrite lookup_insert_ne.
    + intros K' u. rewrite lookup_insert_ne; [done|].
      apply status_path_not_usage_path.
Qed.

(** X19. An event type other than ACTIVATED, CANCELLED and EXPIRED is
    acknowledged and nothing else: 204, no store call, the store as it
    was. *)
Theorem X19_other_events_are_only_acknowledged
    (req : webhook_request) (evt : string) (w : world) :
  wh_method req = "POST" →
  event_type (wh_body req) = Some evt →
  evt ≠ "" →
  evt ≠ "BILLING.SUBSCRIPTION.ACTIVATED" →
  evt ≠ "BILLING.SUBSCRIPTION.CANCELLED" →
  evt ≠ "BILLING.SUBSCRIPTION.EXPIRED" →
  truthy_str (subject req) = true →
  handler req w = (Returned {| wh_code := 204; wh_text := None |}, w).
Proof.
  intros Hm Hevt Hne Ha Hc He Hu.
  assert (truthy_str (event_type (wh_body req)) = true) as Ht
    by (rewrite Hevt; by destruct evt).
  rewrite (webhook_processed req w Hm Ht Hu). rewrite Hevt. cbn [interp_str].
  unfold webhook_payload.
  apply String.eqb_neq in Ha, Hc, He. by rewrite Ha, Hc, He.
Qed.

(** X20. When the store refuses the write of an ACTIVATED, CANCELLED or
    EXPIRED event, the webhook answers 500 "Database Update Failed" and no
    document has changed. *)
Theorem X20_failed_update_is_reported
    (req : webhook_request) (evt : string) (w : world) :
  wh_method req = "POST" →
  event_type (wh_body req) = Some evt →
  evt = "BILLING.SUBSCRIPTION.ACTIVATED"
  ∨ evt = "BILLING.SUBSCRIPTION.CANCELLED"
  ∨ evt = "BILLING.SUBSCRIPTION.EXPIRED" →
  truthy_str (subject req) = true →
  set_fails be (spath (subject req)) = true →
  ∃ w',
    handler req w
    = (Returned {| wh_code := 500; wh_text := Some "Database Update Failed" |}, w')
    ∧ docs w' = docs w.
Proof.
  intros Hm Hevt Hk Hu Hf.
  assert (truthy_str (event_type (wh_body req)) = true) as Ht
    by (rewrite Hevt; by destruct Hk as [->|[->| ->]]).
  rewrite (webhook_processed req w Hm Ht Hu). rewrite Hevt, Hf. cbn [interp_str].
  destruct Hk as [->|[->| ->]]; cbn [webhook_payload String.eqb Ascii.eqb Bool.eqb orb];
    rewrite orb_true_r; eexists; split; reflexivity.
Qed.


End MoreWebhookFacts.

(* ===================================================================== *)
(** ** The webhook and the gate together *)
(* ===================================================================== *)

Section LedgerAndGate.
Variable StringToNumber_lt : string -> Z -> bool.
Variable Timestamp_toPrimitive : Z -> string.
Variable K_SERVICE : option string.
Variable be : backend.

Local Abbreviation gate := (checkSubscription StringToNumber_lt Timestamp_toPrimitive K_SERVICE be).
Local Abbreviation handler := (paypalWebhookHandler K_SERVICE be).
Local Abbreviation spath := (status_path K_SERVICE).
Local Abbreviation upath := (usage_path K_SERVICE).
Local Abbreviation subject req := (extract_user_id (event_resource (wh_body req))).

(** A successful activation, with the world it ends in. *)
Lemma activation_run (req : webhook_request) (pid : string) (w : world) :
  wh_method req = "POST" →
  event_type (wh_body req) = Some "BILLING.SUBSCRIPTION.ACTIVATED" →
  truthy_str (subject req) = true →
  event_resource (wh_body req) ≫= res_id = Some pid →
  set_fails be (spath (subject req)) = false →
  handler req w =
    (Returned {| wh_code := 204; wh_text := None |},
     {| docs := <[spath (subject req) :=
                    <["updated_at" := VTimestamp (server_time be)]>
                      (<["expires_at" := VTimestamp (server_time be)]>
                         (<["paypal_id" := VStr pid]>
                            (<["status" := VStr "active"]>
                               (<["tier" := VStr "pro"]>
                                  (default ∅ (docs w !! spath (subject req)))))))]>
                (docs w);
        log := log w ++ [EvSet (spath (subject req))
                           (activated_payload (event_resource (wh_body req))) true] |}).
Proof.
  intros Hm Hevt Hu Hpid Hw.
  rewrite (webhook_processed K_SERVICE be req w Hm) by (by rewrite ?Hevt).
  rewrite Hevt, Hw. cbn [interp_str webhook_payload String.eqb Ascii.eqb Bool.eqb].
  unfold activated_payload. rewrite Hpid. reflexivity.
Qed.

(** A successful downgrade, with the world it ends in. *)
Lemma downgrade_run (req : webhook_request) (evt : string) (w : world) :
  wh_method req = "POST" →
  event_type (wh_body req) = Some evt →
  evt = "BILLING.SUBSCRIPTION.CANCELLED" ∨ evt = "BILLING.SUBSCRIPTION.EXPIRED" →
  truthy_str (subject req) = true →
  set_fails be (spath (subject req)) = false →
  handler req w =
    (Returned {| wh_code := 204; wh_text := None |},
     {| docs := <[spath (subject req) :=
                    <["updated_at" := VTimestamp (server_time be)]>
                      (<["status" := VStr (toLowerCase evt)]>
                         (<["tier" := VStr "free"]>
                            (default ∅ (docs w !! spath (subject req)))))]>
                (docs w);
        log := log w ++ [EvSet (spath (subject req)) (downgrade_payload evt) true] |}).
Proof.
  intros Hm Hevt Hk Hu Hw.
  rewrite (webhook_processed K_SERVICE be req w Hm)
    by (rewrite ?Hevt; by destruct Hk as [->| ->]).
  rewrite Hevt, Hw. cbn [interp_str].
  by destruct Hk as [->| ->].
Qed.

(** X22. A cancellation after an activation keeps the provider's
    subscription id: the status document then reads [tier: free], the
    lower-cased event type as [status], and the [paypal_id] stored by the
    activation; the subject is no longer an active pro. *)
Theorem X22_cancellation_keeps_the_provider_id
    (activation cancellation : webhook_request) (uid : option string)
    (pid evt : string) (w : world) :
  wh_method activation = "POST" →
  event_type (wh_body activation) = Some "BILLING.SUBSCRIPTION.ACTIVATED" →
  event_resource (wh_body activation) ≫= res_id = Some pid →
  wh_method cancellation = "POST" →
  event_type (wh_body cancellation) = Some evt →
  evt = "BILLING.SUBSCRIPTION.CANCELLED" ∨ evt = "BILLING.SUBSCRIPTION.EXPIRED" →
  subject activation = uid →
  subject cancellation = uid →
  truthy_str uid = true →
  set_fails be (spath uid) = false →
  ∃ w1 w2 d,
    handler activation w = (Returned {| wh_code := 204; wh_text := None |}, w1)
    ∧ handler cancellation w1 = (Returned {| wh_code := 204; wh_text := None |}, w2)
    ∧ docs w2 !! spath uid = Some d
    ∧ d !! "tier" = Some (VStr "free")
    ∧ d !! "status" = Some (VStr (toLowerCase evt))
    ∧ d !! "paypal_id" = Some (VStr pid)
    ∧ ¬ active_pro (subscription_status K_SERVICE w2 uid).
Proof.
  intros Hm1 He1 Hpid Hm2 He2 Hk Hu1 Hu2 Hid Hw.
  rewrite <- Hu1 in Hid, Hw.
  rewrite (activation_run activation pid w Hm1 He1 Hid Hpid Hw).
  rewrite Hu1 in *. rewrite <- Hu2 in Hid, Hw.
  do 3 eexists. split; [reflexivity|].
  rewrite (downgrade_run cancellation evt _ Hm2 He2 Hk Hid Hw). rewrite Hu2.
  split; [reflexivity|]. cbn [docs].
  split; [rewrite !lookup_insert_eq; cbn [default id]; reflexivity|].
  split; [by rewrite !lookup_insert_ne, lookup_insert_eq by done|].
  split; [by rewrite lookup_insert_ne, lookup_insert_eq by done|].
  split; [by rewrite !lookup_insert_ne, lookup_insert_eq by done|].
  unfold active_pro, subscription_status. cbn [docs].
  rewrite lookup_insert_eq. cbn [default id].
  rewrite !lookup_insert_ne, lookup_insert_eq by done.
  intros [H _]. discriminate.
Qed.



End LedgerAndGate.

(* ===================================================================== *)
(** ** Concrete instances of the further properties *)
(* ===================================================================== *)

Lemma fresh_subject_is_not_active_pro :
  ¬ active_pro (subscription_status None empty_world (Some "u1")).
Proof. intros [H _]. vm_compute in H. discriminate. Defined.

Lemma string_count_is_not_active_pro (s : string) :
  ¬ active_pro (subscription_status None (world_string_count s) (Some "u1")).
Proof. intros [H _]. vm_compute in H. discriminate. Defined.

Lemma null_count_is_not_active_pro :
  ¬ active_pro (subscription_status None world_null_count (Some "u1")).
Proof. intros [H _]. vm_compute in H. discriminate. Defined.

(** One evaluation at count 3. *)
Lemma X4_step_from_three :
  ∃ d w' c',
    checkSubscription sample_lt sample_prim None (reliable 0) (Some "u1")
      (world_free_at 3) = (Returned d, w')
    ∧ count_is None w' (Some "u1") c'
    ∧ 3 ≤ c' ≤ 4.
Proof.
  destruct (X4_count_steps_by_at_most_one sample_lt sample_prim None (reliable 0)
              (Some "u1") (world_free_at 3) 3 eq_refl)
    as (d & w' & c' & Hrun & Hc & Hb & _).
  - unfold MIN_SAFE_INTEGER. lia.
  - exists d, w', c'. split; [exact Hrun|]. split; [exact Hc|]. lia.
Defined.

(** Seven evaluations for a fresh subject. *)
Lemma X5_seven_evaluations_from_fresh :
  ∃ ds w',
    evaluate_n sample_lt sample_prim None (reliable 0) 7 (Some "u1") empty_world
      = (Returned ds, w')
    ∧ length ds = 7%nat
    ∧ count_is None w' (Some "u1") 5.
Proof.
  destruct (X5_sequential_evaluations_stop_at_the_limit sample_lt sample_prim
              None (reliable 0) 7 (Some "u1") empty_world 0
              eq_refl eq_refl eq_refl eq_refl
              fresh_subject_is_not_active_pro eq_refl)
    as (ds & w' & Hrun & Hlen & _ & Hc).
  - unfold MIN_SAFE_INTEGER. lia.
  - exists ds, w'. split; [exact Hrun|]. split; [exact Hlen|]. exact Hc.
Defined.

(** Two overlapping evaluations at count 3. *)
Lemma X6_race_at_three :
  ∃ d w',
    racing_pair sample_lt sample_prim None (reliable 0) (Some "u1")
      (world_free_at 3) = (Returned (d, d), w')
    ∧ message d = "Free tier usage: 4/5 analyses used."
    ∧ count_is None w' (Some "u1") 4.
Proof.
  destruct (X6_overlapping_evaluations_lose_an_increment sample_lt sample_prim
              None (reliable 0) (Some "u1") (world_free_at 3) 3
              eq_refl eq_refl eq_refl eq_refl
              (free_tier_is_not_active_pro 3) eq_refl)
    as (_ & w' & Hrun & _ & Hc).
  - unfold MIN_SAFE_INTEGER. lia.
  - lia.
  - eexists _, w'. split; [exact Hrun|]. split; [reflexivity|exact Hc].
Defined.

(** A count stored as the string "3". *)
Lemma X7_count_three_as_string :
  fst (checkSubscription digit_lt sample_prim None (reliable 0) (Some "u1")
         (world_string_count "3"))
  = Returned {| canProceed := true;
                message := "Free tier usage: 31/5 analyses used." |}.
Proof.
  destruct (X7_string_count_is_concatenated digit_lt sample_prim None
              (reliable 0) (Some "u1") (world_string_count "3") "3"
              eq_refl eq_refl eq_refl eq_refl
              (string_count_is_not_active_pro "3") eq_refl eq_refl)
    as (w' & Hrun & _).
  rewrite Hrun. reflexivity.
Defined.

(** A count stored as [null]. *)
Lemma X8_count_null :
  fst (checkSubscription sample_lt sample_prim None (reliable 0) (Some "u1")
         world_null_count)
  = Returned {| canProceed := true;
                message := "Free tier usage: 1/5 analyses used." |}.
Proof.
  destruct (X8_null_count_counts_as_zero sample_lt sample_prim None
              (reliable 0) (Some "u1") world_null_count
              eq_refl eq_refl eq_refl eq_refl
              null_count_is_not_active_pro eq_refl)
    as (w' & Hrun & _).
  rewrite Hrun. reflexivity.
Defined.

(** The two copies on user "u1" at count 2. *)
Lemma X9_copies_on_u1 :
  checkSubscription_gcf sample_lt sample_prim None (reliable 0) (Some "u1")
    (world_free_at 2)
  = checkSubscription sample_lt sample_prim None (reliable 0) (Some "u1")
      (world_free_at 2).
Proof.
  apply (X9_gate_copies_agree_on_present_ids sample_lt sample_prim None
           (reliable 0) (Some "u1") (world_free_at 2)).
  reflexivity.
Defined.

(** A request without an [Authorization] header. *)
Lemma X13_request_without_header :
  runAnalysis sample_lt sample_prim None (reliable 0) sample_truthy
    sample_verify (Some "key") (fun a => a) answering_generate sample_parse
    request_without_header (world_free_at 0)
  = (Returned {| code := 400;
                 sent := BError "Missing authorization token or analysis data." |},
     world_free_at 0).
Proof.
  apply (proj1 (X13_requests_rejected_before_the_gate sample_lt sample_prim
                  None (reliable 0) string sample_truthy string sample_verify
                  (Some "key") (fun a => a) answering_generate sample_parse
                  request_without_header (world_free_at 0))).
  left. reflexivity.
Defined.


(** The header "Bearer tok1". *)
Lemma X16_token_of_sample_request :
  bearer_token sample_request = Some "tok1".
Proof.
  apply (proj2 (X16_bearer_token_is_read_back sample_lt sample_prim
                  None (reliable 0) string sample_truthy string sample_verify
                  (Some "key") (fun a => a) answering_generate sample_parse
                  sample_request empty_world) "tok1");
    reflexivity.
Defined.

(** A payment event that is not a subscription event. *)
Lemma X19_payment_completed :
  paypalWebhookHandler None (reliable 0)
    (sample_event "PAYMENT.SALE.COMPLETED") (world_free_at 2)
  = (Returned {| wh_code := 204; wh_text := None |}, world_free_at 2).
Proof.
  apply (X19_other_events_are_only_acknowledged None (reliable 0)
           (sample_event "PAYMENT.SALE.COMPLETED") "PAYMENT.SALE.COMPLETED"
           (world_free_at 2));
    (reflexivity || discriminate).
Defined.

(** An activation while the store refuses writes to the status document. *)
Lemma X20_activation_with_write_fault :
  ∃ w',
    paypalWebhookHandler None (write_fault_at u1_status)
      (sample_event "BILLING.SUBSCRIPTION.ACTIVATED") (world_free_at 2)
    = (Returned {| wh_code := 500; wh_text := Some "Database Update Failed" |}, w')
    ∧ docs w' = docs (world_free_at 2).
Proof.
  apply (X20_failed_update_is_reported None (write_fault_at u1_status)
           (sample_event "BILLING.SUBSCRIPTION.ACTIVATED")
           "BILLING.SUBSCRIPTION.ACTIVATED" (world_free_at 2));
    [reflexivity|reflexivity|by left|reflexivity|reflexivity].
Defined.

(** Activation, then cancellation, of "u1". *)
Lemma X22_activate_then_cancel :
  ∃ w1 w2 d,
    paypalWebhookHandler None (reliable 0)
      (sample_event "BILLING.SUBSCRIPTION.ACTIVATED") empty_world
    = (Returned {| wh_code := 204; wh_text := None |}, w1)
    ∧ paypalWebhookHandler None (reliable 0)
        (sample_event "BILLING.SUBSCRIPTION.CANCELLED") w1
      = (Returned {| wh_code := 204; wh_text := None |}, w2)
    ∧ docs w2 !! u1_status = Some d
    ∧ d !! "tier" = Some (VStr "free")
    ∧ d !! "paypal_id" = Some (VStr "P1").
Proof.
  destruct (X22_cancellation_keeps_the_provider_id None (reliable 0)
              (sample_event "BILLING.SUBSCRIPTION.ACTIVATED")
              (sample_event "BILLING.SUBSCRIPTION.CANCELLED")
              (Some "u1") "P1" "BILLING.SUBSCRIPTION.CANCELLED" empty_world
              eq_refl eq_refl eq_refl eq_refl eq_refl (or_introl eq_refl)
              eq_refl eq_refl eq_refl eq_refl)
    as (w1 & w2 & d & H1 & H2 & Hd & Ht & _ & Hp & _).
  exists w1, w2, d. repeat split; assumption.
Defined.


